(** * MQTT wire codec

    A shallow embedding of [messages.go] (package [mqtt]) together with the
    properties its specification states about it.

    Octets are [Byte.byte]; every Go integer ([uint8], [uint16], [int32],
    [int]) is a [Z] whose wrap-around is written out where the code
    converts or shifts; a Go [string] is a [String.string] and [[]byte] is a
    [list byte].  A [bytes.Buffer] is the list of octets appended so far, an
    [io.Reader] is the list of octets still to be read. *)

From Stdlib Require Import ZArith List Bool Lia.
From Stdlib.Strings Require Import String Byte.
Import ListNotations.
Local Open Scope Z_scope.

(** ** Machine integers and octets *)

Definition wrap8 (z : Z) : Z := z mod 256.
Definition wrap16 (z : Z) : Z := z mod 65536.

(** Conversion of a Go [int] to [int32]. *)
Definition to_int32 (z : Z) : Z :=
  (z + 2147483648) mod 4294967296 - 2147483648.

(** [uint8(b)] for an octet read from a stream. *)
Definition Z_of_byte (b : byte) : Z := Z.of_N (Byte.to_N b).

(** [byte(z)]: the low eight bits of an integer, as an octet. *)
Definition byte_of_Z (z : Z) : byte :=
  match Byte.of_N (Z.to_N (wrap8 z)) with
  | Some b => b
  | None => x00
  end.

Definition Buffer := list byte.
Definition Reader := list byte.

Definition len {A : Type} (l : list A) : Z := Z.of_nat (List.length l).
Definition strlen (s : string) : Z := Z.of_nat (String.length s).

(** ** Errors *)

(** The error values of the package.  The four [bad...Error] values are
    named in [messages.go]; the other kinds are the ones the specification
    lists (section 7).  [io.EOF] and [io.ErrUnexpectedEOF], which
    [io.ReadFull] returns on an exhausted source, are the specification's
    [TruncatedStreamError]; [IOError] is an error of the underlying sink. *)
Inductive error : Set :=
| badQosError
| badMsgTypeError
| badWillQosError
| badReturnCodeError
| MalformedLengthError
| TruncatedStreamError
| IOError (code : Z).

(** [isValidationError e]: [e] is one of the encode-time validation errors. *)
Definition isValidationError (e : error) : bool :=
  match e with
  | badQosError | badMsgTypeError | badWillQosError => true
  | _ => false
  end.

(** ** Results of code that may panic *)

(** What running a piece of Go code yields: a value, a panic raised by the
    codec itself that carries an [error] (an internal fault), any other
    run-time panic (index out of range, negative [make] length), or, for the
    model only, a loop that was cut off by its step bound. *)
Inductive res (A : Type) : Type :=
| Ok (a : A)
| Raise (e : error)
| Crash
| Starved.
Arguments Ok {A} a.
Arguments Raise {A} e.
Arguments Crash {A}.
Arguments Starved {A}.

(** The state a payload decoder threads through its reads: the source and
    the local variable [packetRemaining] every primitive read gets a pointer
    to. *)
Record dstate : Set := mkDstate { src : Reader; packetRemaining : Z }.

Definition M (A : Type) : Type := dstate -> res (A * dstate).

Definition ret {A : Type} (a : A) : M A := fun st => Ok (a, st).

Definition bind {A B : Type} (m : M A) (k : A -> M B) : M B :=
  fun st =>
    match m st with
    | Ok (a, st') => k a st'
    | Raise e => Raise e
    | Crash => Crash
    | Starved => Starved
    end.

Notation "x <- m ;; k" := (bind m (fun x => k))
  (at level 61, m at next level, right associativity).

(** ** [io.ReadFull] *)

(** [io.ReadFull(r, buf)] with [len(buf) = n]: exactly [n] octets, or an
    error when the source ends first (none are needed when [n = 0]). *)
Definition ReadFull (r : Reader) (n : nat) : (list byte * Reader) + error :=
  if (List.length r <? n)%nat then inr TruncatedStreamError
  else inl (firstn n r, skipn n r).

(** ** Primitive field codec *)

(** Modelled from the spec: [boolToByte] is used by [messages.go] but
    declared elsewhere; the flag bits of section 4.3 are 1 for true and 0
    for false. *)
Definition boolToByte (val : bool) : Z := if val then 1 else 0.

(** Modelled from the spec: [setUint8] is declared outside [messages.go];
    section 4.2: one octet, value as-is. *)
Definition setUint8 (val : Z) (buf : Buffer) : Buffer :=
  buf ++ [byte_of_Z val].

(** Modelled from the spec: [setUint16] is declared outside [messages.go];
    section 4.2: two octets, most significant octet first. *)
Definition setUint16 (val : Z) (buf : Buffer) : Buffer :=
  buf ++ [byte_of_Z (wrap16 val / 256); byte_of_Z (wrap16 val mod 256)].

(** Modelled from the spec: [setString] is declared outside [messages.go];
    section 4.2: a 16-bit big-endian length followed by the octets of the
    text, no terminator. *)
Definition setString (val : string) (buf : Buffer) : Buffer :=
  setUint16 (strlen val) buf ++ list_byte_of_string val.

(** Modelled from the spec: [getUint8] is declared outside [messages.go];
    sections 4.2, 4.4 and 4.6: one octet; a read beyond the remaining-length
    budget or past the end of the source raises an internal fault.  The
    specification has no error kind of its own for a budget overrun; both
    faults carry [TruncatedStreamError], the one decode-time kind of section
    7 that speaks of the budget. *)
Definition getUint8 : M Z := fun st =>
  if packetRemaining st <? 1 then Raise TruncatedStreamError
  else match src st with
       | b :: r' => Ok (Z_of_byte b, mkDstate r' (packetRemaining st - 1))
       | [] => Raise TruncatedStreamError
       end.

(** Modelled from the spec: [getUint16] is declared outside [messages.go];
    sections 4.2, 4.4 and 4.6: two octets, most significant first, with the
    faults of [getUint8]. *)
Definition getUint16 : M Z := fun st =>
  if packetRemaining st <? 2 then Raise TruncatedStreamError
  else match src st with
       | b1 :: b0 :: r' =>
           Ok (Z_of_byte b1 * 256 + Z_of_byte b0,
               mkDstate r' (packetRemaining st - 2))
       | _ => Raise TruncatedStreamError
       end.

(** Modelled from the spec: [getString] is declared outside [messages.go];
    sections 4.2, 4.4 and 4.6: a 16-bit length, then exactly that many
    octets, with a fault when the budget or the source is too short. *)
Definition getString : M string :=
  strLen <- getUint16 ;;
  fun st =>
    if packetRemaining st <? strLen then Raise TruncatedStreamError
    else match ReadFull (src st) (Z.to_nat strLen) with
         | inl (b, r') =>
             Ok (string_of_list_byte b,
                 mkDstate r' (packetRemaining st - strLen))
         | inr _ => Raise TruncatedStreamError
         end.

(** ** Variable-length integer codec *)

(** Modelled from the spec: [encodeLength] is declared outside
    [messages.go]; section 4.1: 7-bit chunks, least significant first, every
    chunk but the last with its top bit set, the minimal number of chunks,
    one zero chunk for 0.  An [int32] that is not negative has at most five
    chunks. *)
Fixpoint encodeLength_chunks (n : nat) (length : Z) : list byte :=
  match n with
  | O => []
  | S n' =>
      let digit := length mod 128 in
      let length' := length / 128 in
      if 0 <? length' then byte_of_Z (digit + 128) :: encodeLength_chunks n' length'
      else [byte_of_Z digit]
  end.

(** Modelled from the spec: [encodeLength(length, buf)] appends those
    chunks to the buffer (section 4.1). *)
Definition encodeLength (length : Z) (buf : Buffer) : Buffer :=
  buf ++ encodeLength_chunks 5 length.

(** Modelled from the spec: [decodeLength] is declared outside
    [messages.go]; section 4.1: chunks are read until one has no
    continuation flag, [value += chunk_low7 * 128^i]; at most four chunks
    are read, a continuation flag on the fourth is a malformed field, and a
    short read is a fault (section 4.3). *)
Fixpoint decodeLength_loop (n : nat) (i : Z) (value : Z) (r : Reader)
  : res (Z * Reader) :=
  match n with
  | O => Raise MalformedLengthError
  | S n' =>
      match r with
      | b :: r' =>
          let chunk := Z_of_byte b in
          let value' := value + (chunk mod 128) * 128 ^ i in
          if chunk <? 128 then Ok (value', r')
          else decodeLength_loop n' (i + 1) value' r'
      | [] => Raise TruncatedStreamError
      end
  end.

(** Modelled from the spec: [decodeLength(r)] starts at chunk 0 with value
    0 and may read four chunks (section 4.1). *)
Definition decodeLength (r : Reader) : res (Z * Reader) :=
  decodeLength_loop 4 0 0 r.

(** ** Data model *)

(** [QosLevel] and [ReturnCode] are [uint8] in Go, [MessageType] is
    [uint8]: all three are carried as [Z]. *)
Definition QosLevel := Z.
Definition ReturnCode := Z.
Definition MessageType := Z.

(** Modelled from the spec: [QosLevel.IsValid] is declared outside
    [messages.go]; section 3: the valid levels are 0, 1 and 2. *)
Definition QosLevel_IsValid (qos : QosLevel) : bool :=
  (0 <=? qos) && (qos <? 3).

(** Modelled from the spec: [QosLevel.HasId] is declared outside
    [messages.go]; section 3: true for levels 1 and 2. *)
Definition QosLevel_HasId (qos : QosLevel) : bool :=
  (qos =? 1) || (qos =? 2).

(** Modelled from the spec: [ReturnCode.IsValid] is declared outside
    [messages.go]; section 3: the valid return codes are 0 to 5. *)
Definition ReturnCode_IsValid (rc : ReturnCode) : bool :=
  (0 <=? rc) && (rc <=? 5).

Definition MsgConnect : MessageType := 1.
Definition MsgConnAck : MessageType := 2.
Definition MsgPublish : MessageType := 3.
Definition MsgPubAck : MessageType := 4.
Definition MsgPubRec : MessageType := 5.
Definition MsgPubRel : MessageType := 6.
Definition MsgPubComp : MessageType := 7.
Definition MsgSubscribe : MessageType := 8.
Definition MsgSubAck : MessageType := 9.
Definition MsgUnsubscribe : MessageType := 10.
Definition MsgUnsubAck : MessageType := 11.
Definition MsgPingReq : MessageType := 12.
Definition MsgPingResp : MessageType := 13.
Definition MsgDisconnect : MessageType := 14.
Definition msgTypeFirstInvalid : MessageType := 15.

(** [MessageType.IsValid], [messages.go] lines 83-85. *)
Definition MessageType_IsValid (mt : MessageType) : bool :=
  (mt >=? MsgConnect) && (mt <? msgTypeFirstInvalid).

Record Header : Set := mkHeader {
  DupFlag : bool;
  Retain : bool;
  Header_QosLevel : QosLevel
}.

(** The zero value of [Header]. *)
Definition Header_zero : Header := mkHeader false false 0.

Record Connect : Set := mkConnect {
  Connect_Header : Header;
  ProtocolName : string;
  ProtocolVersion : Z;
  WillRetain : bool;
  WillFlag : bool;
  CleanSession : bool;
  WillQos : QosLevel;
  KeepAliveTimer : Z;
  ClientId : string;
  WillTopic : string;
  WillMessage : string;
  UsernameFlag : bool;
  PasswordFlag : bool;
  Username : string;
  Password : string
}.

Record ConnAck : Set := mkConnAck {
  ConnAck_Header : Header;
  ConnAck_ReturnCode : ReturnCode
}.

Record Publish : Set := mkPublish {
  Publish_Header : Header;
  TopicName : string;
  Publish_MessageId : Z;
  Data : list byte
}.

Record Subscribe : Set := mkSubscribe {
  Subscribe_Header : Header;
  Subscribe_MessageId : Z;
  Subscribe_Topics : list string;
  Subscribe_TopicsQos : list QosLevel
}.

Record SubAck : Set := mkSubAck {
  SubAck_Header : Header;
  SubAck_MessageId : Z;
  SubAck_TopicsQos : list QosLevel
}.

Record Unsubscribe : Set := mkUnsubscribe {
  Unsubscribe_Header : Header;
  Unsubscribe_MessageId : Z;
  Unsubscribe_Topics : list string
}.

Record AckCommon : Set := mkAckCommon {
  AckCommon_Header : Header;
  AckCommon_MessageId : Z
}.

(** Modelled from the spec: [messages.go] declares no type for [PingReq],
    [PingResp] and [Disconnect]; sections 3 and 4.4: a header is embedded in
    every message value and these three have no payload. *)
Record PingReq : Set := mkPingReq { PingReq_Header : Header }.
Record PingResp : Set := mkPingResp { PingResp_Header : Header }.
Record Disconnect : Set := mkDisconnect { Disconnect_Header : Header }.

(** A value of the interface type [Message]: one of the message kinds.
    [PubAck], [PubRec], [PubRel], [PubComp] and [UnsubAck] are structs that
    embed [AckCommon] and nothing else. *)
Inductive Message : Set :=
| IsConnect (m : Connect)
| IsConnAck (m : ConnAck)
| IsPublish (m : Publish)
| IsPubAck (m : AckCommon)
| IsPubRec (m : AckCommon)
| IsPubRel (m : AckCommon)
| IsPubComp (m : AckCommon)
| IsSubscribe (m : Subscribe)
| IsSubAck (m : SubAck)
| IsUnsubscribe (m : Unsubscribe)
| IsUnsubAck (m : AckCommon)
| IsPingReq (m : PingReq)
| IsPingResp (m : PingResp)
| IsDisconnect (m : Disconnect).

(** The message type a message value stands for. *)
Definition typeOf (m : Message) : MessageType :=
  match m with
  | IsConnect _ => MsgConnect
  | IsConnAck _ => MsgConnAck
  | IsPublish _ => MsgPublish
  | IsPubAck _ => MsgPubAck
  | IsPubRec _ => MsgPubRec
  | IsPubRel _ => MsgPubRel
  | IsPubComp _ => MsgPubComp
  | IsSubscribe _ => MsgSubscribe
  | IsSubAck _ => MsgSubAck
  | IsUnsubscribe _ => MsgUnsubscribe
  | IsUnsubAck _ => MsgUnsubAck
  | IsPingReq _ => MsgPingReq
  | IsPingResp _ => MsgPingResp
  | IsDisconnect _ => MsgDisconnect
  end.

Definition headerOf (m : Message) : Header :=
  match m with
  | IsConnect m => Connect_Header m
  | IsConnAck m => ConnAck_Header m
  | IsPublish m => Publish_Header m
  | IsPubAck m | IsPubRec m | IsPubRel m | IsPubComp m | IsUnsubAck m =>
      AckCommon_Header m
  | IsSubscribe m => Subscribe_Header m
  | IsSubAck m => SubAck_Header m
  | IsUnsubscribe m => Unsubscribe_Header m
  | IsPingReq m => PingReq_Header m
  | IsPingResp m => PingResp_Header m
  | IsDisconnect m => Disconnect_Header m
  end.

(** ** The sink *)

(** An [io.Writer]: the octets it has accepted, and what its next calls of
    [Write] answer: [Some code] for a failing call, which writes nothing and
    returns the sink's own [IOError code]; [None], or no entry, for a call
    that accepts all its octets. *)
Record Writer : Set := mkWriter {
  written : list byte;
  answers : list (option Z)
}.

Definition Write (w : Writer) (p : list byte) : Writer * option error :=
  match answers w with
  | Some code :: rest => (mkWriter (written w) rest, Some (IOError code))
  | None :: rest => (mkWriter (written w ++ p) rest, None)
  | [] => (mkWriter (written w ++ p) [], None)
  end.

(** A sink that accepts everything, such as a [bytes.Buffer]. *)
Definition newBuffer : Writer := mkWriter [] [].

(** ** Fixed header *)

(** [Header.Encode], [messages.go] lines 13-30: both validations come
    before the octet is packed and before the one [Write]. *)
Definition Header_Encode (hdr : Header) (w : Writer) (msgType : MessageType)
  (remainingLength : Z) : Writer * option error :=
  if negb (QosLevel_IsValid (Header_QosLevel hdr)) then (w, Some badQosError)
  else if negb (MessageType_IsValid msgType) then (w, Some badMsgTypeError)
  else
    let buf : Buffer := [] in
    let val := wrap8 (Z.shiftl (wrap8 msgType) 4) in
    let val := Z.lor val (wrap8 (Z.shiftl (boolToByte (DupFlag hdr)) 3)) in
    let val := Z.lor val (wrap8 (Z.shiftl (wrap8 (Header_QosLevel hdr)) 1)) in
    let val := Z.lor val (boolToByte (Retain hdr)) in
    let buf := buf ++ [byte_of_Z val] in
    let buf := encodeLength remainingLength buf in
    Write w buf.

(** [writeMessage], [messages.go] lines 87-96.  The message type handed to
    [Header.Encode] is the constant [MsgConnect]. *)
Definition writeMessage (w : Writer) (hdr : Header) (payloadBuf : Buffer)
  : Writer * option error :=
  match Header_Encode hdr w MsgConnect (to_int32 (len payloadBuf)) with
  | (w', Some err) => (w', Some err)
  | (w', None) => Write w' payloadBuf
  end.

(** ** Encoders *)

(** [Connect.Encode], [messages.go] lines 113-144. *)
Definition Connect_Encode (msg : Connect) (w : Writer) : Writer * option error :=
  if negb (QosLevel_IsValid (WillQos msg)) then (w, Some badWillQosError)
  else
    let buf : Buffer := [] in
    let flags := wrap8 (Z.shiftl (boolToByte (UsernameFlag msg)) 7) in
    let flags := Z.lor flags (wrap8 (Z.shiftl (boolToByte (PasswordFlag msg)) 6)) in
    let flags := Z.lor flags (wrap8 (Z.shiftl (boolToByte (WillRetain msg)) 5)) in
    let flags := Z.lor flags (wrap8 (Z.shiftl (wrap8 (WillQos msg)) 3)) in
    let flags := Z.lor flags (wrap8 (Z.shiftl (boolToByte (WillFlag msg)) 2)) in
    let flags := Z.lor flags (wrap8 (Z.shiftl (boolToByte (CleanSession msg)) 1)) in
    let buf := setString (ProtocolName msg) buf in
    let buf := setUint8 (ProtocolVersion msg) buf in
    let buf := buf ++ [byte_of_Z flags] in
    let buf := setUint16 (KeepAliveTimer msg) buf in
    let buf := setString (ClientId msg) buf in
    let buf := if WillFlag msg
               then setString (WillMessage msg) (setString (WillTopic msg) buf)
               else buf in
    let buf := if UsernameFlag msg then setString (Username msg) buf else buf in
    let buf := if PasswordFlag msg then setString (Password msg) buf else buf in
    writeMessage w (Connect_Header msg) buf.

(** [ConnAck.Encode], [messages.go] lines 189-196. *)
Definition ConnAck_Encode (msg : ConnAck) (w : Writer) : Writer * option error :=
  let buf : Buffer := [] in
  let buf := buf ++ [byte_of_Z 0] in
  let buf := setUint8 (ConnAck_ReturnCode msg) buf in
  writeMessage w (ConnAck_Header msg) buf.

(** [Publish.Encode], [messages.go] lines 219-229. *)
Definition Publish_Encode (msg : Publish) (w : Writer) : Writer * option error :=
  let buf : Buffer := [] in
  let buf := setString (TopicName msg) buf in
  let buf := if QosLevel_HasId (Header_QosLevel (Publish_Header msg))
             then setUint16 (Publish_MessageId msg) buf else buf in
  let buf := buf ++ Data msg in
  writeMessage w (Publish_Header msg) buf.

(** The loop of [Subscribe.Encode]: [n] iterations are left and [i] is the
    index; an index past the end of a slice is a run-time panic. *)
Fixpoint Subscribe_Encode_loop (n i : nat) (msg : Subscribe) (buf : Buffer)
  : res Buffer :=
  match n with
  | O => Ok buf
  | S n' =>
      match nth_error (Subscribe_Topics msg) i with
      | None => Crash
      | Some topic =>
          let buf := setString topic buf in
          match nth_error (Subscribe_TopicsQos msg) i with
          | None => Crash
          | Some qos => Subscribe_Encode_loop n' (S i) msg (setUint8 qos buf)
          end
      end
  end.

(** [Subscribe.Encode], [messages.go] lines 270-281. *)
Definition Subscribe_Encode (msg : Subscribe) (w : Writer)
  : res (Writer * option error) :=
  let buf : Buffer := [] in
  let buf := if QosLevel_HasId (Header_QosLevel (Subscribe_Header msg))
             then setUint16 (Subscribe_MessageId msg) buf else buf in
  match Subscribe_Encode_loop (List.length (Subscribe_Topics msg)) 0 msg buf with
  | Ok buf => Ok (writeMessage w (Subscribe_Header msg) buf)
  | Raise e => Raise e
  | Crash => Crash
  | Starved => Starved
  end.

(** [SubAck.Encode], [messages.go] lines 309-317; its loop indexes the
    slice it takes its bound from, so it is a fold over that slice. *)
Definition SubAck_Encode (msg : SubAck) (w : Writer) : Writer * option error :=
  let buf : Buffer := [] in
  let buf := setUint16 (SubAck_MessageId msg) buf in
  let buf := fold_left (fun buf qos => setUint8 qos buf) (SubAck_TopicsQos msg) buf in
  writeMessage w (SubAck_Header msg) buf.

(** [Unsubscribe.Encode], [messages.go] lines 341-351. *)
Definition Unsubscribe_Encode (msg : Unsubscribe) (w : Writer)
  : Writer * option error :=
  let buf : Buffer := [] in
  let buf := if QosLevel_HasId (Header_QosLevel (Unsubscribe_Header msg))
             then setUint16 (Unsubscribe_MessageId msg) buf else buf in
  let buf := fold_left (fun buf topic => setString topic buf)
               (Unsubscribe_Topics msg) buf in
  writeMessage w (Unsubscribe_Header msg) buf.

(** [AckCommon.Encode], [messages.go] lines 379-384. *)
Definition AckCommon_Encode (msg : AckCommon) (w : Writer) : Writer * option error :=
  let buf : Buffer := [] in
  let buf := setUint16 (AckCommon_MessageId msg) buf in
  writeMessage w (AckCommon_Header msg) buf.

(** Modelled from the spec: [messages.go] has no encoder for [PingReq],
    [PingResp] and [Disconnect]; sections 4.3 and 4.4: header only, that is
    the fixed header of the message's type with remaining length 0. *)
Definition PingReq_Encode (msg : PingReq) (w : Writer) : Writer * option error :=
  Header_Encode (PingReq_Header msg) w MsgPingReq 0.

(** Modelled from the spec: as [PingReq_Encode]. *)
Definition PingResp_Encode (msg : PingResp) (w : Writer) : Writer * option error :=
  Header_Encode (PingResp_Header msg) w MsgPingResp 0.

(** Modelled from the spec: as [PingReq_Encode]. *)
Definition Disconnect_Encode (msg : Disconnect) (w : Writer)
  : Writer * option error :=
  Header_Encode (Disconnect_Header msg) w MsgDisconnect 0.

(** ** The boundary of a [Decode] call *)

(** What the caller of a public [Decode] observes: a nil error with the
    decoded value, a returned error, a panic that left the call, or (for the
    model only) a loop cut off by its step bound. *)
Inductive outcome (A : Type) : Type :=
| Success (a : A)
| Failure (err : error)
| Escaped
| Hung.
Arguments Success {A} a.
Arguments Failure {A} err.
Arguments Escaped {A}.
Arguments Hung {A}.

(** Modelled from the spec: [recoverError] is declared outside
    [messages.go]; section 4.6: deferred by every public [Decode], it turns
    an internal fault raised during the call into the returned error and
    leaves an error the body returned itself unchanged.  The specification
    says nothing of other panics; they are let through.  [messages.go] calls
    it as [err = recoverError(err)] from inside the deferred closure; how
    its body gets hold of the panic is not visible there, and the model
    takes the conversion to work as the specification describes it. *)
Definition recoverError {A : Type} (body : res (A + error)) : outcome A :=
  match body with
  | Ok (inl a) => Success a
  | Ok (inr err) => Failure err
  | Raise err => Failure err
  | Crash => Escaped
  | Starved => Hung
  end.

(** Runs the body of a payload decoder on a source and a budget and keeps,
    besides its result, what is left of the source. *)
Definition runBody {A : Type} (body : M (A + error)) (r : Reader)
  (packetRemaining : Z) : res ((A * Reader) + error) :=
  match body (mkDstate r packetRemaining) with
  | Ok (inl a, st) => Ok (inl (a, src st))
  | Ok (inr err, _) => Ok (inr err)
  | Raise e => Raise e
  | Crash => Crash
  | Starved => Starved
  end.

(** ** Fixed header, decoding *)

(** [Header.Decode], [messages.go] lines 32-55.  A failed read of the first
    octet is returned as the error; a fault of [decodeLength] goes through
    the deferred [recoverError]. *)
Definition Header_Decode (hdr : Header) (r : Reader)
  : outcome (Header * MessageType * Z * Reader) :=
  recoverError
    match ReadFull r 1 with
    | inr err => Ok (inr err)
    | inl (buf, r) =>
        let byte1 := Z_of_byte (nth 0 buf x00) in
        let msgType := Z.shiftr (Z.land byte1 240) 4 in
        let hdr := mkHeader (Z.land byte1 8 >? 0)
                            (Z.land byte1 1 >? 0)
                            (Z.shiftr (Z.land byte1 6) 1) in
        match decodeLength r with
        | Ok (remainingLength, r) => Ok (inl (hdr, msgType, remainingLength, r))
        | Raise e => Raise e
        | Crash => Crash
        | Starved => Starved
        end
    end.

(** ** Decoders *)

(** [Connect.Decode], [messages.go] lines 146-182.  The struct literal
    assigned to [*msg] leaves [Header], and the strings that are not read,
    at their zero values; [hdr] is not used. *)
Definition Connect_Decode_body (msg : Connect) : M (Connect + error) :=
  protocolName <- getString ;;
  protocolVersion <- getUint8 ;;
  flags <- getUint8 ;;
  keepAliveTimer <- getUint16 ;;
  clientId <- getString ;;
  let usernameFlag := Z.land flags 128 >? 0 in
  let passwordFlag := Z.land flags 64 >? 0 in
  let willRetain := Z.land flags 32 >? 0 in
  let willQos := Z.shiftr (Z.land flags 24) 3 in
  let willFlag := Z.land flags 4 >? 0 in
  let cleanSession := Z.land flags 2 >? 0 in
  will <- (if willFlag
           then willTopic <- getString ;; willMessage <- getString ;;
                ret (willTopic, willMessage)
           else ret (EmptyString, EmptyString)) ;;
  username <- (if usernameFlag then getString else ret EmptyString) ;;
  password <- (if passwordFlag then getString else ret EmptyString) ;;
  ret (inl (mkConnect Header_zero protocolName protocolVersion willRetain
              willFlag cleanSession willQos keepAliveTimer clientId
              (fst will) (snd will) usernameFlag passwordFlag username password)).

Definition Connect_Decode (msg : Connect) (r : Reader) (hdr : Header)
  (packetRemaining : Z) : outcome (Connect * Reader) :=
  recoverError (runBody (Connect_Decode_body msg) r packetRemaining).

(** [ConnAck.Decode], [messages.go] lines 198-210. *)
Definition ConnAck_Decode_body (msg : ConnAck) : M (ConnAck + error) :=
  _ <- getUint8 ;;
  rc <- getUint8 ;;
  let msg := mkConnAck (ConnAck_Header msg) rc in
  if negb (ReturnCode_IsValid (ConnAck_ReturnCode msg))
  then ret (inr badReturnCodeError)
  else ret (inl msg).

Definition ConnAck_Decode (msg : ConnAck) (r : Reader) (hdr : Header)
  (packetRemaining : Z) : outcome (ConnAck * Reader) :=
  recoverError (runBody (ConnAck_Decode_body msg) r packetRemaining).

(** [Publish.Decode], [messages.go] lines 231-245.  The QoS level tested is
    that of the receiver's own [Header]; [make] with a negative length is a
    run-time panic; an error of [io.ReadFull] is returned, not raised. *)
Definition Publish_Decode_body (msg : Publish) : M (Publish + error) :=
  topicName <- getString ;;
  let msg := mkPublish (Publish_Header msg) topicName (Publish_MessageId msg)
               (Data msg) in
  msg <- (if QosLevel_HasId (Header_QosLevel (Publish_Header msg))
          then id <- getUint16 ;;
               ret (mkPublish (Publish_Header msg) (TopicName msg) id (Data msg))
          else ret msg) ;;
  fun st =>
    if packetRemaining st <? 0 then Crash
    else match ReadFull (src st) (Z.to_nat (packetRemaining st)) with
         | inl (data, r) =>
             Ok (inl (mkPublish (Publish_Header msg) (TopicName msg)
                        (Publish_MessageId msg) data),
                 mkDstate r (packetRemaining st))
         | inr err => Ok (inr err, st)
         end.

Definition Publish_Decode (msg : Publish) (r : Reader) (hdr : Header)
  (packetRemaining : Z) : outcome (Publish * Reader) :=
  recoverError (runBody (Publish_Decode_body msg) r packetRemaining).

(** The loop [for packetRemaining > 0] of [Subscribe.Decode].  Every
    iteration lowers the budget, so the budget itself bounds the number of
    iterations; [n] is that bound. *)
Fixpoint Subscribe_Decode_loop (n : nat) (topics : list string)
  (topicsQos : list QosLevel) : M (list string * list QosLevel) :=
  fun st =>
    if packetRemaining st >? 0 then
      match n with
      | O => Starved
      | S n' =>
          (topic <- getString ;;
           qos <- getUint8 ;;
           Subscribe_Decode_loop n' (topics ++ [topic]) (topicsQos ++ [qos])) st
      end
    else Ok ((topics, topicsQos), st).

(** [Subscribe.Decode], [messages.go] lines 283-301. *)
Definition Subscribe_Decode_body (msg : Subscribe) : M (Subscribe + error) :=
  id <- (if QosLevel_HasId (Header_QosLevel (Subscribe_Header msg))
         then getUint16 else ret (Subscribe_MessageId msg)) ;;
  lists <- (fun st =>
              Subscribe_Decode_loop (Z.to_nat (packetRemaining st)) [] [] st) ;;
  ret (inl (mkSubscribe (Subscribe_Header msg) id (fst lists) (snd lists))).

Definition Subscribe_Decode (msg : Subscribe) (r : Reader) (hdr : Header)
  (packetRemaining : Z) : outcome (Subscribe * Reader) :=
  recoverError (runBody (Subscribe_Decode_body msg) r packetRemaining).

(** The loop of [SubAck.Decode], bounded like that of [Subscribe.Decode]. *)
Fixpoint SubAck_Decode_loop (n : nat) (topicsQos : list QosLevel)
  : M (list QosLevel) :=
  fun st =>
    if packetRemaining st >? 0 then
      match n with
      | O => Starved
      | S n' =>
          (b <- getUint8 ;;
           let grantedQos := Z.land b 3 in
           SubAck_Decode_loop n' (topicsQos ++ [grantedQos])) st
      end
    else Ok (topicsQos, st).

(** [SubAck.Decode], [messages.go] lines 319-333. *)
Definition SubAck_Decode_body (msg : SubAck) : M (SubAck + error) :=
  id <- getUint16 ;;
  topicsQos <- (fun st =>
                  SubAck_Decode_loop (Z.to_nat (packetRemaining st)) [] st) ;;
  ret (inl (mkSubAck (SubAck_Header msg) id topicsQos)).

Definition SubAck_Decode (msg : SubAck) (r : Reader) (hdr : Header)
  (packetRemaining : Z) : outcome (SubAck * Reader) :=
  recoverError (runBody (SubAck_Decode_body msg) r packetRemaining).

(** The loop of [Unsubscribe.Decode], bounded like the two above. *)
Fixpoint Unsubscribe_Decode_loop (n : nat) (topics : list string)
  : M (list string) :=
  fun st =>
    if packetRemaining st >? 0 then
      match n with
      | O => Starved
      | S n' =>
          (topic <- getString ;;
           Unsubscribe_Decode_loop n' (topics ++ [topic])) st
      end
    else Ok (topics, st).

(** [Unsubscribe.Decode], [messages.go] lines 353-368. *)
Definition Unsubscribe_Decode_body (msg : Unsubscribe)
  : M (Unsubscribe + error) :=
  let qos := Header_QosLevel (Unsubscribe_Header msg) in
  id <- (if (qos =? 1) || (qos =? 2)
         then getUint16 else ret (Unsubscribe_MessageId msg)) ;;
  topics <- (fun st =>
               Unsubscribe_Decode_loop (Z.to_nat (packetRemaining st)) [] st) ;;
  ret (inl (mkUnsubscribe (Unsubscribe_Header msg) id topics)).

Definition Unsubscribe_Decode (msg : Unsubscribe) (r : Reader) (hdr : Header)
  (packetRemaining : Z) : outcome (Unsubscribe * Reader) :=
  recoverError (runBody (Unsubscribe_Decode_body msg) r packetRemaining).

(** [AckCommon.Decode], [messages.go] lines 386-394. *)
Definition AckCommon_Decode_body (msg : AckCommon) : M (AckCommon + error) :=
  id <- getUint16 ;;
  ret (inl (mkAckCommon (AckCommon_Header msg) id)).

Definition AckCommon_Decode (msg : AckCommon) (r : Reader) (hdr : Header)
  (packetRemaining : Z) : outcome (AckCommon * Reader) :=
  recoverError (runBody (AckCommon_Decode_body msg) r packetRemaining).

(** Modelled from the spec: [messages.go] has no decoder for [PingReq],
    [PingResp] and [Disconnect]; section 4.4: no payload, so nothing is read
    and the value carries the header handed in. *)
Definition PingReq_Decode (msg : PingReq) (r : Reader) (hdr : Header)
  (packetRemaining : Z) : outcome (PingReq * Reader) :=
  Success (mkPingReq hdr, r).

(** Modelled from the spec: as [PingReq_Decode]. *)
Definition PingResp_Decode (msg : PingResp) (r : Reader) (hdr : Header)
  (packetRemaining : Z) : outcome (PingResp * Reader) :=
  Success (mkPingResp hdr, r).

(** Modelled from the spec: as [PingReq_Decode]. *)
Definition Disconnect_Decode (msg : Disconnect) (r : Reader) (hdr : Header)
  (packetRemaining : Z) : outcome (Disconnect * Reader) :=
  Success (mkDisconnect hdr, r).

(** ** The [Message] interface *)

(** [type Message interface { Encode(w) error; Decode(r, hdr,
    packetRemaining) error }]: the two methods of a message type.  A call of
    [Encode] may panic instead of returning, hence the [res]. *)
Class MessageMethods (A : Set) : Type := {
  encode : A -> Writer -> res (Writer * option error);
  decode : A -> Reader -> Header -> Z -> outcome (A * Reader)
}.

#[export] Instance Connect_methods : MessageMethods Connect :=
  {| encode msg w := Ok (Connect_Encode msg w); decode := Connect_Decode |}.

#[export] Instance ConnAck_methods : MessageMethods ConnAck :=
  {| encode msg w := Ok (ConnAck_Encode msg w); decode := ConnAck_Decode |}.

#[export] Instance Publish_methods : MessageMethods Publish :=
  {| encode msg w := Ok (Publish_Encode msg w); decode := Publish_Decode |}.

#[export] Instance Subscribe_methods : MessageMethods Subscribe :=
  {| encode := Subscribe_Encode; decode := Subscribe_Decode |}.

#[export] Instance SubAck_methods : MessageMethods SubAck :=
  {| encode msg w := Ok (SubAck_Encode msg w); decode := SubAck_Decode |}.

#[export] Instance Unsubscribe_methods : MessageMethods Unsubscribe :=
  {| encode msg w := Ok (Unsubscribe_Encode msg w);
     decode := Unsubscribe_Decode |}.

(** The methods [PubAck], [PubRec], [PubRel], [PubComp] and [UnsubAck] get
    from the [AckCommon] they embed. *)
#[export] Instance AckCommon_methods : MessageMethods AckCommon :=
  {| encode msg w := Ok (AckCommon_Encode msg w); decode := AckCommon_Decode |}.

#[export] Instance PingReq_methods : MessageMethods PingReq :=
  {| encode msg w := Ok (PingReq_Encode msg w); decode := PingReq_Decode |}.

#[export] Instance PingResp_methods : MessageMethods PingResp :=
  {| encode msg w := Ok (PingResp_Encode msg w); decode := PingResp_Decode |}.

#[export] Instance Disconnect_methods : MessageMethods Disconnect :=
  {| encode msg w := Ok (Disconnect_Encode msg w);
     decode := Disconnect_Decode |}.

(** [msg.Encode(w)] on a value of the interface type. *)
Definition Encode (m : Message) (w : Writer) : res (Writer * option error) :=
  match m with
  | IsConnect m => encode m w
  | IsConnAck m => encode m w
  | IsPublish m => encode m w
  | IsPubAck m | IsPubRec m | IsPubRel m | IsPubComp m | IsUnsubAck m =>
      encode m w
  | IsSubscribe m => encode m w
  | IsSubAck m => encode m w
  | IsUnsubscribe m => encode m w
  | IsPingReq m => encode m w
  | IsPingResp m => encode m w
  | IsDisconnect m => encode m w
  end.

(** Puts the decoded value back behind its interface tag. *)
Definition lift {A : Type} (tag : A -> Message) (o : outcome (A * Reader))
  : outcome (Message * Reader) :=
  match o with
  | Success (a, r) => Success (tag a, r)
  | Failure e => Failure e
  | Escaped => Escaped
  | Hung => Hung
  end.

(** [msg.Decode(r, hdr, packetRemaining)] on a value of the interface
    type. *)
Definition Decode (m : Message) (r : Reader) (hdr : Header) (packetRemaining : Z)
  : outcome (Message * Reader) :=
  match m with
  | IsConnect m => lift IsConnect (decode m r hdr packetRemaining)
  | IsConnAck m => lift IsConnAck (decode m r hdr packetRemaining)
  | IsPublish m => lift IsPublish (decode m r hdr packetRemaining)
  | IsPubAck m => lift IsPubAck (decode m r hdr packetRemaining)
  | IsPubRec m => lift IsPubRec (decode m r hdr packetRemaining)
  | IsPubRel m => lift IsPubRel (decode m r hdr packetRemaining)
  | IsPubComp m => lift IsPubComp (decode m r hdr packetRemaining)
  | IsSubscribe m => lift IsSubscribe (decode m r hdr packetRemaining)
  | IsSubAck m => lift IsSubAck (decode m r hdr packetRemaining)
  | IsUnsubscribe m => lift IsUnsubscribe (decode m r hdr packetRemaining)
  | IsUnsubAck m => lift IsUnsubAck (decode m r hdr packetRemaining)
  | IsPingReq m => lift IsPingReq (decode m r hdr packetRemaining)
  | IsPingResp m => lift IsPingResp (decode m r hdr packetRemaining)
  | IsDisconnect m => lift IsDisconnect (decode m r hdr packetRemaining)
  end.

(** ** Dispatch *)

Definition Connect_zero : Connect :=
  mkConnect Header_zero EmptyString 0 false false false 0 0 EmptyString
    EmptyString EmptyString false false EmptyString EmptyString.

(** Modelled from the spec: [NewMessage] is declared outside [messages.go];
    section 4.5: the empty message value matching the type. *)
Definition NewMessage (msgType : MessageType) : option Message :=
  match msgType with
  | 1 => Some (IsConnect Connect_zero)
  | 2 => Some (IsConnAck (mkConnAck Header_zero 0))
  | 3 => Some (IsPublish (mkPublish Header_zero EmptyString 0 []))
  | 4 => Some (IsPubAck (mkAckCommon Header_zero 0))
  | 5 => Some (IsPubRec (mkAckCommon Header_zero 0))
  | 6 => Some (IsPubRel (mkAckCommon Header_zero 0))
  | 7 => Some (IsPubComp (mkAckCommon Header_zero 0))
  | 8 => Some (IsSubscribe (mkSubscribe Header_zero 0 [] []))
  | 9 => Some (IsSubAck (mkSubAck Header_zero 0 []))
  | 10 => Some (IsUnsubscribe (mkUnsubscribe Header_zero 0 []))
  | 11 => Some (IsUnsubAck (mkAckCommon Header_zero 0))
  | 12 => Some (IsPingReq (mkPingReq Header_zero))
  | 13 => Some (IsPingResp (mkPingResp Header_zero))
  | 14 => Some (IsDisconnect (mkDisconnect Header_zero))
  | _ => None
  end.

(** Modelled from the spec: [DecodeRead] is declared outside [messages.go];
    section 4.5: decode the fixed header, validate the message type, build
    the empty message of that type, call its [Decode] with the header and
    the remaining length, and hand every error on unchanged. *)
Definition DecodeRead (r : Reader) : outcome (Message * Reader) :=
  match Header_Decode Header_zero r with
  | Success (hdr, msgType, packetRemaining, r) =>
      match NewMessage msgType with
      | Some msg => Decode msg r hdr packetRemaining
      | None => Failure badMsgTypeError
      end
  | Failure e => Failure e
  | Escaped => Escaped
  | Hung => Hung
  end.


(** The message kinds whose encoder in [messages.go] ends in
    [writeMessage]. *)
Definition viaWriteMessage (m : Message) : bool :=
  match m with
  | IsPingReq _ | IsPingResp _ | IsDisconnect _ => false
  | _ => true
  end.

(** ** Well-behaved results *)

(** A result that is a value or the fault of a short packet or source: no
    other panic, and no loop cut off. *)
Definition sound {A : Type} (x : res A) : Prop :=
  match x with
  | Ok _ => True
  | Raise e => e = TruncatedStreamError
  | Crash | Starved => False
  end.

(** A computation that is well behaved from every state. *)
Definition msound {A : Type} (m : M A) : Prop := forall st, sound (m st).

(** ** The values of the test suite *)

(** The [Connect] message of [Test] in [mqtt_test.go]. *)
Definition testConnect : Connect :=
  mkConnect Header_zero "MQIsdp" 3 false true true 1 10 "xixihaha"
    "topic" "message" true true "name" "pwd".

(** The octets [Test] expects, field by field, with the remaining length as
    its arithmetic gives it. *)
Definition testExpected : list byte :=
  [x10] ++ [byte_of_Z (12 + 5 * 2 + 8 + 5 + 7 + 4 + 3)]
  ++ ([x00; x06] ++ list_byte_of_string "MQIsdp")
  ++ [x03; xce; x00; x0a]
  ++ ([x00; x08] ++ list_byte_of_string "xixihaha")
  ++ ([x00; x05] ++ list_byte_of_string "topic")
  ++ ([x00; x07] ++ list_byte_of_string "message")
  ++ ([x00; x04] ++ list_byte_of_string "name")
  ++ ([x00; x03] ++ list_byte_of_string "pwd").

(** ** Payloads and well-formed values *)

Definition uint8 (z : Z) : Prop := 0 <= z < 256.
Definition uint16 (z : Z) : Prop := 0 <= z < 65536.

(** A string whose length fits the 16-bit length field. *)
Definition string16 (s : string) : Prop := strlen s < 65536.

(** The buffer [Connect.Encode] hands to [writeMessage] ([messages.go]
    lines 118-141). *)
Definition Connect_payload (msg : Connect) : Buffer :=
  let buf : Buffer := [] in
  let flags := wrap8 (Z.shiftl (boolToByte (UsernameFlag msg)) 7) in
  let flags := Z.lor flags (wrap8 (Z.shiftl (boolToByte (PasswordFlag msg)) 6)) in
  let flags := Z.lor flags (wrap8 (Z.shiftl (boolToByte (WillRetain msg)) 5)) in
  let flags := Z.lor flags (wrap8 (Z.shiftl (wrap8 (WillQos msg)) 3)) in
  let flags := Z.lor flags (wrap8 (Z.shiftl (boolToByte (WillFlag msg)) 2)) in
  let flags := Z.lor flags (wrap8 (Z.shiftl (boolToByte (CleanSession msg)) 1)) in
  let buf := setString (ProtocolName msg) buf in
  let buf := setUint8 (ProtocolVersion msg) buf in
  let buf := buf ++ [byte_of_Z flags] in
  let buf := setUint16 (KeepAliveTimer msg) buf in
  let buf := setString (ClientId msg) buf in
  let buf := if WillFlag msg
             then setString (WillMessage msg) (setString (WillTopic msg) buf)
             else buf in
  let buf := if UsernameFlag msg then setString (Username msg) buf else buf in
  let buf := if PasswordFlag msg then setString (Password msg) buf else buf in
  buf.

(** The buffer [ConnAck.Encode] hands to [writeMessage]. *)
Definition ConnAck_payload (msg : ConnAck) : Buffer :=
  setUint8 (ConnAck_ReturnCode msg) ([] ++ [byte_of_Z 0]).

(** The buffer [Publish.Encode] hands to [writeMessage]. *)
Definition Publish_payload (msg : Publish) : Buffer :=
  let buf := setString (TopicName msg) [] in
  let buf := if QosLevel_HasId (Header_QosLevel (Publish_Header msg))
             then setUint16 (Publish_MessageId msg) buf else buf in
  buf ++ Data msg.

(** The buffer [SubAck.Encode] hands to [writeMessage]. *)
Definition SubAck_payload (msg : SubAck) : Buffer :=
  fold_left (fun buf qos => setUint8 qos buf) (SubAck_TopicsQos msg)
    (setUint16 (SubAck_MessageId msg) []).

(** The buffer [Unsubscribe.Encode] hands to [writeMessage]. *)
Definition Unsubscribe_payload (msg : Unsubscribe) : Buffer :=
  fold_left (fun buf topic => setString topic buf) (Unsubscribe_Topics msg)
    (if QosLevel_HasId (Header_QosLevel (Unsubscribe_Header msg))
     then setUint16 (Unsubscribe_MessageId msg) [] else []).

(** The buffer [Subscribe.Encode] starts its loop with. *)
Definition Subscribe_prefix (msg : Subscribe) : Buffer :=
  if QosLevel_HasId (Header_QosLevel (Subscribe_Header msg))
  then setUint16 (Subscribe_MessageId msg) [] else [].

(** The fixed header octet of a message sent through [writeMessage]. *)
Definition headerOctet (msgType : MessageType) (hdr : Header) : byte :=
  byte_of_Z (16 * msgType + 8 * boolToByte (DupFlag hdr)
             + 2 * Header_QosLevel hdr + boolToByte (Retain hdr)).

(** A [Connect] value whose fields fit their wire fields and whose optional
    strings are empty when their flag is off: the values [Connect.Decode]
    can give back. *)
Record Connect_wf (msg : Connect) : Prop := {
  wf_WillQos : QosLevel_IsValid (WillQos msg) = true;
  wf_ProtocolVersion : uint8 (ProtocolVersion msg);
  wf_KeepAliveTimer : uint16 (KeepAliveTimer msg);
  wf_ProtocolName : string16 (ProtocolName msg);
  wf_ClientId : string16 (ClientId msg);
  wf_WillTopic : string16 (WillTopic msg);
  wf_WillMessage : string16 (WillMessage msg);
  wf_Username : string16 (Username msg);
  wf_Password : string16 (Password msg);
  wf_will : WillFlag msg = false ->
            WillTopic msg = EmptyString /\ WillMessage msg = EmptyString;
  wf_user : UsernameFlag msg = false -> Username msg = EmptyString;
  wf_pass : PasswordFlag msg = false -> Password msg = EmptyString
}.

(** [msg] with another header. *)
Definition Connect_withHeader (h : Header) (msg : Connect) : Connect :=
  mkConnect h (ProtocolName msg) (ProtocolVersion msg) (WillRetain msg)
    (WillFlag msg) (CleanSession msg) (WillQos msg) (KeepAliveTimer msg)
    (ClientId msg) (WillTopic msg) (WillMessage msg) (UsernameFlag msg)
    (PasswordFlag msg) (Username msg) (Password msg).

(** What [Encode] asks of a message before it writes: a valid QoS level in
    the header, a valid will-QoS in a [Connect], and a QoS entry for every
    topic of a [Subscribe]. *)
Definition encodable (m : Message) : Prop :=
  QosLevel_IsValid (Header_QosLevel (headerOf m)) = true
  /\ match m with
     | IsConnect c => QosLevel_IsValid (WillQos c) = true
     | IsSubscribe s =>
         (List.length (Subscribe_Topics s) <= List.length (Subscribe_TopicsQos s))%nat
     | _ => True
     end.

(** What one iteration of the loop of [Subscribe.Encode] appends: the topic
    and its requested QoS. *)
Definition Subscribe_entry (p : string * QosLevel) : list byte :=
  setUint8 (snd p) (setString (fst p) []).

(** A computation that takes the octets it reads from the front of the
    source and their number from the budget, and leaves the budget at zero
    or above whenever it has read. *)
Definition accounted {A : Type} (m : M A) : Prop :=
  forall st a st',
    m st = Ok (a, st') ->
    exists pre,
      src st = pre ++ src st'
      /\ len pre = packetRemaining st - packetRemaining st'
      /\ (pre = [] \/ 0 <= packetRemaining st').

(** A computation that returns with no budget left. *)
Definition drained {A : Type} (m : M A) : Prop :=
  forall st a st', m st = Ok (a, st') -> packetRemaining st' <= 0.

(** The message kinds whose decoder reads until the budget is used up. *)
Definition readsToBudget (m : Message) : bool :=
  match m with
  | IsPublish _ | IsSubscribe _ | IsSubAck _ | IsUnsubscribe _ => true
  | _ => false
  end.

(** A computation all of whose values satisfy [Q]. *)
Definition produces {A : Type} (Q : A -> Prop) (m : M A) : Prop :=
  forall st a st', m st = Ok (a, st') -> Q a.

(** [Q] of the message a decoder body returns with a nil error. *)
Definition onMessage {A : Type} (Q : A -> Prop) (v : A + error) : Prop :=
  match v with
  | inl a => Q a
  | inr _ => True
  end.

(** What holds of every [Connect] that [Connect.Decode] returns: the zero
    header, fields within their wire ranges, and empty strings where a flag
    is off. *)
Record Connect_decoded (msg : Connect) : Prop := {
  dec_Header : Connect_Header msg = Header_zero;
  dec_WillQos : 0 <= WillQos msg <= 3;
  dec_ProtocolVersion : uint8 (ProtocolVersion msg);
  dec_KeepAliveTimer : uint16 (KeepAliveTimer msg);
  dec_ProtocolName : string16 (ProtocolName msg);
  dec_ClientId : string16 (ClientId msg);
  dec_WillTopic : string16 (WillTopic msg);
  dec_WillMessage : string16 (WillMessage msg);
  dec_Username : string16 (Username msg);
  dec_Password : string16 (Password msg);
  dec_will : WillFlag msg = false ->
             WillTopic msg = EmptyString /\ WillMessage msg = EmptyString;
  dec_user : UsernameFlag msg = false -> Username msg = EmptyString;
  dec_pass : PasswordFlag msg = false -> Password msg = EmptyString
}.

(** * Properties *)

(** ** Octets *)

Lemma Z_of_byte_range (b : byte) : 0 <= Z_of_byte b < 256.
Proof.
  unfold Z_of_byte. pose proof (Byte.to_N_bounded b). lia.
Qed.

Lemma Z_of_byte_of_Z (z : Z) : Z_of_byte (byte_of_Z z) = wrap8 z.
Proof.
  unfold Z_of_byte, byte_of_Z.
  assert (Hr : 0 <= wrap8 z < 256) by (unfold wrap8; apply Z.mod_pos_bound; lia).
  destruct (Byte.of_N (Z.to_N (wrap8 z))) as [b|] eqn:E.
  - apply Byte.to_of_N in E. rewrite E. lia.
  - apply Byte.of_N_None_iff in E. lia.
Qed.

Lemma Z_of_byte_of_Z_small (z : Z) : 0 <= z < 256 -> Z_of_byte (byte_of_Z z) = z.
Proof.
  intros H. rewrite Z_of_byte_of_Z. unfold wrap8. apply Z.mod_small, H.
Qed.

Lemma byte_of_Z_of_byte (b : byte) : byte_of_Z (Z_of_byte b) = b.
Proof.
  unfold byte_of_Z, Z_of_byte, wrap8.
  pose proof (Byte.to_N_bounded b).
  rewrite Z.mod_small by lia.
  rewrite N2Z.id, Byte.of_to_N. reflexivity.
Qed.

Lemma ReadFull_ok (r : Reader) (n : nat) (b : list byte) (r' : Reader) :
  ReadFull r n = inl (b, r') -> r = b ++ r' /\ List.length b = n.
Proof.
  unfold ReadFull. destruct (List.length r <? n)%nat eqn:E; [discriminate|].
  apply Nat.ltb_ge in E. intros H. injection H as <- <-. split.
  - symmetry. apply firstn_skipn.
  - apply firstn_length_le, E.
Qed.

Lemma ReadFull_err (r : Reader) (n : nat) (e : error) :
  ReadFull r n = inr e -> e = TruncatedStreamError /\ (List.length r < n)%nat.
Proof.
  unfold ReadFull. destruct (List.length r <? n)%nat eqn:E; [|discriminate].
  apply Nat.ltb_lt in E. intros H. injection H as <-. auto.
Qed.

(** ** The remaining-length codec *)

(** Decoding what [encodeLength_chunks] wrote in front of any octets [rest]
    adds the encoded value at the current place and stops there, as long as
    the value fits in the chunks the decoder may still read. *)
Lemma decodeLength_loop_chunks (k : nat) :
  forall (k' : nat) (i value n : Z) (rest : Reader),
    (1 <= k <= k')%nat -> 0 <= i -> 0 <= n < 128 ^ Z.of_nat k ->
    decodeLength_loop k i value (encodeLength_chunks k' n ++ rest)
    = Ok (value + n * 128 ^ i, rest).
Proof.
  induction k as [|k IH]; intros k' i value n rest Hk Hi Hn; [lia|].
  destruct k' as [|k']; [lia|].
  cbn [encodeLength_chunks].
  pose proof (Z.div_mod n 128 ltac:(lia)) as Hdm.
  pose proof (Z.mod_pos_bound n 128 ltac:(lia)) as Hmod.
  destruct (0 <? n / 128) eqn:Hq.
  - apply Z.ltb_lt in Hq.
    assert (Hk1 : (1 <= k)%nat).
    { destruct k; [|lia]. change (128 ^ Z.of_nat 1) with 128 in Hn.
      assert (n / 128 = 0) by (apply Z.div_small; lia). lia. }
    cbn [app decodeLength_loop].
    rewrite Z_of_byte_of_Z_small by lia.
    replace ((n mod 128 + 128) mod 128) with (n mod 128)
      by (rewrite Z.add_mod, Z.mod_same, Z.add_0_r, !Z.mod_mod by lia; reflexivity).
    destruct (n mod 128 + 128 <? 128) eqn:Hc; [apply Z.ltb_lt in Hc; lia|].
    rewrite IH; try lia.
    + f_equal. f_equal. rewrite Z.pow_add_r by lia. change (128 ^ 1) with 128.
      remember (n mod 128) as d. remember (n / 128) as q.
      rewrite Hdm. ring.
    + split; [lia|].
      apply Z.div_lt_upper_bound; [lia|].
      replace (Z.of_nat (S k)) with (Z.of_nat k + 1) in Hn by lia.
      rewrite Z.pow_add_r in Hn by lia. change (128 ^ 1) with 128 in Hn. lia.
  - apply Z.ltb_ge in Hq.
    assert (Hz : n / 128 = 0) by (pose proof (Z.div_pos n 128); lia).
    cbn [app decodeLength_loop].
    rewrite Z_of_byte_of_Z_small by lia.
    rewrite Z.mod_mod by lia.
    destruct (n mod 128 <? 128) eqn:Hc; [|apply Z.ltb_ge in Hc; lia].
    f_equal. f_equal. rewrite Hz in Hdm.
    remember (n mod 128) as d. rewrite Hdm. ring.
Qed.

(** C8: for every [n] from 0 to 268435455, decoding the octets
    [encodeLength] produces for [n] gives [n] again (and consumes exactly
    those octets, whatever follows them in the source). *)
Theorem decodeLength_encodeLength (n : Z) (rest : Reader) :
  0 <= n <= 268435455 ->
  decodeLength (encodeLength n [] ++ rest) = Ok (n, rest).
Proof.
  intros Hn. unfold decodeLength, encodeLength. rewrite app_nil_l.
  rewrite decodeLength_loop_chunks.
  - f_equal. f_equal. change (128 ^ 0) with 1. lia.
  - lia.
  - lia.
  - change (128 ^ Z.of_nat 4) with 268435456. lia.
Qed.

(** The round trip at 321, two chunks, in front of another octet. *)
Lemma decodeLength_encodeLength_witness :
  0 <= 321 <= 268435455 /\
  decodeLength (encodeLength 321 [] ++ [x2a]) = Ok (321, [x2a]).
Proof.
  split; [lia | apply (decodeLength_encodeLength 321 [x2a]); lia].
Defined.

(** The literal table of the specification (section 8). *)
Example decodeLength_table :
  map decodeLength
      [[x00]; [x7f]; [x80; x01]; [xff; x7f]; [x80; x80; x01];
       [xff; xff; x7f]; [x80; x80; x80; x01]; [xff; xff; xff; x7f]]
  = map (fun v => Ok (v, []))
      [0; 127; 128; 16383; 16384; 2097151; 2097152; 268435455].
Proof. reflexivity. Qed.

(** ** The fixed header octet *)

(** The octet [Header.Encode] packs, as arithmetic. *)
Lemma header_octet (t : Z) (dup retain : bool) (qos : Z) :
  0 <= t < 16 -> 0 <= qos < 4 ->
  Z.lor (Z.lor (Z.lor (wrap8 (Z.shiftl (wrap8 t) 4))
                      (wrap8 (Z.shiftl (boolToByte dup) 3)))
               (wrap8 (Z.shiftl (wrap8 qos) 1)))
        (boolToByte retain)
  = 16 * t + 8 * boolToByte dup + 2 * qos + boolToByte retain.
Proof.
  intros Ht Hq.
  assert (Hts : t = 0 \/ t = 1 \/ t = 2 \/ t = 3 \/ t = 4 \/ t = 5 \/ t = 6
                \/ t = 7 \/ t = 8 \/ t = 9 \/ t = 10 \/ t = 11 \/ t = 12
                \/ t = 13 \/ t = 14 \/ t = 15) by lia.
  assert (Hqs : qos = 0 \/ qos = 1 \/ qos = 2 \/ qos = 3) by lia.
  destruct dup, retain;
    repeat (destruct Hts as [-> | Hts]); try subst t;
    repeat (destruct Hqs as [-> | Hqs]); try subst qos; reflexivity.
Qed.

(** What [writeMessage] sends to a sink that accepts it: one octet whose
    high nibble is [MsgConnect], whatever message called it, and whose low
    nibble packs the dup flag, the QoS level and the retain flag; then the
    remaining length and the payload. *)
Lemma writeMessage_octets (w w' : Writer) (hdr : Header) (payloadBuf : Buffer) :
  writeMessage w hdr payloadBuf = (w', None) ->
  written w' =
    written w
    ++ [byte_of_Z (16 * MsgConnect + 8 * boolToByte (DupFlag hdr)
                   + 2 * Header_QosLevel hdr + boolToByte (Retain hdr))]
    ++ encodeLength_chunks 5 (to_int32 (len payloadBuf))
    ++ payloadBuf.
Proof.
  unfold writeMessage, Header_Encode.
  destruct (QosLevel_IsValid (Header_QosLevel hdr)) eqn:Hq; [|discriminate].
  cbn [negb MessageType_IsValid]. change (negb (MessageType_IsValid MsgConnect)) with false.
  cbv iota.
  unfold QosLevel_IsValid in Hq. apply andb_prop in Hq as [Hq0 Hq3].
  apply Z.leb_le in Hq0. apply Z.ltb_lt in Hq3.
  rewrite header_octet by (unfold MsgConnect; lia).
  unfold encodeLength, Write.
  destruct (answers w) as [|[c|] rest]; cbn [written answers].
  - intros H; injection H as <-; cbn [written];
      rewrite <- !app_assoc; reflexivity.
  - discriminate.
  - destruct rest as [|[c|] rest]; intros H; try discriminate;
      injection H as <-; cbn [written]; rewrite <- !app_assoc; reflexivity.
Qed.

(** C1: the first octet [ConnAck.Encode] writes.  Encoding the zero
    [ConnAck] succeeds and writes [10 02 00 00]: the high nibble of the
    first octet is 1, the type of [Connect], and not 2, the message's own
    type; the low nibble is the packed flags. *)
Theorem ConnAck_Encode_first_octet :
  let m := IsConnAck (mkConnAck Header_zero 0) in
  Encode m newBuffer = Ok (mkWriter [x10; x02; x00; x00] [], None)
  /\ Z.shiftr (Z_of_byte x10) 4 = MsgConnect
  /\ Z.land (Z_of_byte x10) 15 = 0
  /\ typeOf m = MsgConnAck
  /\ Z.shiftr (Z_of_byte x10) 4 <> typeOf m.
Proof.
  cbv zeta. repeat split; try reflexivity. discriminate.
Qed.

(** ** The Connect message of the test suite *)

(** C3, as the code has it: encoding the [Connect] message of the test
    gives the header octet [0x10], the remaining length 49 in one octet,
    the protocol name [00 06 "MQIsdp"], the octets [03 CE 00 0A], then
    client id, will topic, will message, username and password, each with
    its 16-bit length in front. *)
Theorem Connect_Encode_test :
  Connect_Encode testConnect newBuffer = (mkWriter testExpected [], None)
  /\ nth_error testExpected 1 = Some (byte_of_Z 49)
  /\ encodeLength 49 [] = [byte_of_Z 49].
Proof. repeat split; reflexivity. Qed.

(** C3 as stated fails: the remaining-length octet of that encoding is 49,
    not 39. *)
Lemma Connect_Encode_test_length_not_39 :
  ~ (exists rest, written (fst (Connect_Encode testConnect newBuffer))
                  = x10 :: encodeLength 39 [] ++ rest).
Proof.
  intros [rest H]. vm_compute in H. discriminate H.
Qed.

(** The second half of [Test]: [DecodeRead] on the expected octets gives
    the message back. *)
Example DecodeRead_test :
  DecodeRead testExpected = Success (IsConnect testConnect, []).
Proof. reflexivity. Qed.

(** ** Round trips that fail *)


(** ** Validation on encode *)

(** Resolves a method call on a value of the interface type. *)
Ltac unfold_methods :=
  cbn [Encode Decode encode decode Connect_methods ConnAck_methods
       Publish_methods Subscribe_methods SubAck_methods Unsubscribe_methods
       AckCommon_methods PingReq_methods PingResp_methods Disconnect_methods].

Ltac unfold_methods_in H :=
  cbn [Encode Decode encode decode Connect_methods ConnAck_methods
       Publish_methods Subscribe_methods SubAck_methods Unsubscribe_methods
       AckCommon_methods PingReq_methods PingResp_methods Disconnect_methods]
    in H.

Lemma Write_error (w w' : Writer) (p : list byte) (e : error) :
  Write w p = (w', Some e) -> isValidationError e = false.
Proof.
  unfold Write. destruct (answers w) as [|[c|] rest]; intros H;
    try discriminate; injection H as _ <-; reflexivity.
Qed.

Lemma Header_Encode_qos3 (hdr : Header) (w : Writer) (t L : Z) :
  Header_QosLevel hdr = 3 -> Header_Encode hdr w t L = (w, Some badQosError).
Proof. intros H. unfold Header_Encode. rewrite H. reflexivity. Qed.

Lemma writeMessage_qos3 (w : Writer) (hdr : Header) (buf : Buffer) :
  Header_QosLevel hdr = 3 -> writeMessage w hdr buf = (w, Some badQosError).
Proof.
  intros H. unfold writeMessage. rewrite Header_Encode_qos3 by exact H.
  reflexivity.
Qed.

Lemma Header_Encode_validation (hdr : Header) (w w' : Writer) (t L : Z) (e : error) :
  Header_Encode hdr w t L = (w', Some e) -> isValidationError e = true -> w' = w.
Proof.
  unfold Header_Encode.
  destruct (negb (QosLevel_IsValid (Header_QosLevel hdr)));
    [intros H; injection H as <- _; reflexivity|].
  destruct (negb (MessageType_IsValid t));
    [intros H; injection H as <- _; reflexivity|].
  intros H Hv. apply Write_error in H. congruence.
Qed.

Lemma writeMessage_validation (w w' : Writer) (hdr : Header) (buf : Buffer)
  (e : error) :
  writeMessage w hdr buf = (w', Some e) -> isValidationError e = true -> w' = w.
Proof.
  unfold writeMessage.
  destruct (Header_Encode hdr w MsgConnect (to_int32 (len buf)))
    as [w1 [e1|]] eqn:E.
  - intros H Hv. injection H as <- <-. eapply Header_Encode_validation; eauto.
  - intros H Hv. apply Write_error in H. congruence.
Qed.

(** The loop of [Subscribe.Encode] runs through when both slices have an
    element at every index it visits. *)
Lemma Subscribe_Encode_loop_ok (msg : Subscribe) (n : nat) :
  forall (i : nat) (buf : Buffer),
    (i + n <= List.length (Subscribe_Topics msg))%nat ->
    (i + n <= List.length (Subscribe_TopicsQos msg))%nat ->
    exists buf', Subscribe_Encode_loop n i msg buf = Ok buf'.
Proof.
  induction n as [|n IH]; intros i buf Ht Hq; cbn [Subscribe_Encode_loop].
  - eauto.
  - destruct (nth_error (Subscribe_Topics msg) i) as [topic|] eqn:Et.
    2:{ apply nth_error_None in Et. lia. }
    destruct (nth_error (Subscribe_TopicsQos msg) i) as [qos|] eqn:Eq.
    2:{ apply nth_error_None in Eq. lia. }
    apply IH; lia.
Qed.

(** It panics as soon as it is to visit an index [TopicsQos] does not have. *)
Lemma Subscribe_Encode_loop_crash (msg : Subscribe) (n : nat) :
  forall (i : nat) (buf : Buffer),
    (i + n <= List.length (Subscribe_Topics msg))%nat ->
    (i <= List.length (Subscribe_TopicsQos msg) < i + n)%nat ->
    Subscribe_Encode_loop n i msg buf = Crash.
Proof.
  induction n as [|n IH]; intros i buf Ht Hq; cbn [Subscribe_Encode_loop].
  - lia.
  - destruct (nth_error (Subscribe_Topics msg) i) as [topic|] eqn:Et.
    2:{ apply nth_error_None in Et. lia. }
    destruct (nth_error (Subscribe_TopicsQos msg) i) as [qos|] eqn:Eq;
      [|reflexivity].
    assert (i < List.length (Subscribe_TopicsQos msg))%nat
      by (apply nth_error_Some; congruence).
    apply IH; lia.
Qed.

(** C10: [Subscribe.Encode] reads [TopicsQos] at every index of [Topics]
    and checks no length.  With at least as many QoS entries as topics the
    call returns; with more topics than QoS entries it panics on an index
    out of range and returns nothing. *)
Theorem Subscribe_Encode_index (msg : Subscribe) (w : Writer) :
  ((List.length (Subscribe_TopicsQos msg) >= List.length (Subscribe_Topics msg))%nat ->
   exists out, Subscribe_Encode msg w = Ok out)
  /\ ((List.length (Subscribe_Topics msg) > List.length (Subscribe_TopicsQos msg))%nat ->
      Subscribe_Encode msg w = Crash).
Proof.
  unfold Subscribe_Encode. split; intros H.
  - match goal with
    | |- context [Subscribe_Encode_loop ?n ?i msg ?b] =>
        destruct (Subscribe_Encode_loop_ok msg n i b) as [buf' ->]
    end; try (cbn; lia).
    eauto.
  - rewrite Subscribe_Encode_loop_crash; [reflexivity | cbn; lia | cbn; lia].
Qed.

(** One topic with two QoS entries encodes; two topics with one QoS entry
    panic. *)
Lemma Subscribe_Encode_index_witness :
  (exists out,
     Subscribe_Encode (mkSubscribe Header_zero 0 ["a"%string] [1; 2]) newBuffer
     = Ok out)
  /\ Subscribe_Encode (mkSubscribe Header_zero 0 ["a"%string; "b"%string] [1])
       newBuffer = Crash.
Proof.
  split.
  - apply (proj1 (Subscribe_Encode_index
                    (mkSubscribe Header_zero 0 ["a"%string] [1; 2]) newBuffer)).
    simpl. lia.
  - apply (proj2 (Subscribe_Encode_index
                    (mkSubscribe Header_zero 0 ["a"%string; "b"%string] [1])
                    newBuffer)).
    simpl. lia.
Defined.

(** C4 as stated fails: a [Subscribe] with QoS level 3 and a topic without
    its QoS entry does not return [badQosError], it panics. *)
Lemma Encode_qos3_Subscribe_panics :
  let m := IsSubscribe (mkSubscribe (mkHeader false false 3) 0 ["a"%string] []) in
  Header_QosLevel (headerOf m) = 3
  /\ Encode m newBuffer = Crash
  /\ Encode m newBuffer <> Ok (newBuffer, Some badQosError).
Proof. cbv zeta. repeat split. discriminate. Qed.

(** C4, as the code has it: a message whose header has QoS level 3 (a
    [Connect] with a valid will-QoS, a [Subscribe] with a QoS entry for
    every topic) makes [Encode] return [badQosError] and leaves the sink as
    it was; and whenever [Encode] returns one of the validation errors the
    sink is as it was before the call. *)
Theorem Encode_validation_before_write (m : Message) (w : Writer) :
  (Header_QosLevel (headerOf m) = 3 ->
   (forall c, m = IsConnect c -> QosLevel_IsValid (WillQos c) = true) ->
   (forall s, m = IsSubscribe s ->
      (List.length (Subscribe_Topics s) <= List.length (Subscribe_TopicsQos s))%nat) ->
   Encode m w = Ok (w, Some badQosError))
  /\ (forall w' e, Encode m w = Ok (w', Some e) ->
        isValidationError e = true -> w' = w).
Proof.
  split.
  - intros Hq Hc Hs.
    destruct m; cbn [headerOf] in Hq; unfold_methods;
      unfold ConnAck_Encode, Publish_Encode, SubAck_Encode, Unsubscribe_Encode,
        AckCommon_Encode, PingReq_Encode, PingResp_Encode, Disconnect_Encode;
      try (rewrite writeMessage_qos3 by exact Hq; reflexivity);
      try (rewrite Header_Encode_qos3 by exact Hq; reflexivity).
    + unfold Connect_Encode. rewrite (Hc m eq_refl). cbn [negb].
      rewrite writeMessage_qos3 by exact Hq. reflexivity.
    + unfold Subscribe_Encode.
      match goal with
      | |- context [Subscribe_Encode_loop ?n ?i m ?b] =>
          destruct (Subscribe_Encode_loop_ok m n i b) as [buf' ->]
      end; try (specialize (Hs m eq_refl); cbn; lia).
      rewrite writeMessage_qos3 by exact Hq. reflexivity.
  - intros w' e H Hv.
    destruct m; unfold_methods_in H;
      try (injection H as H;
           first [ eapply writeMessage_validation; eassumption
                 | eapply Header_Encode_validation; eassumption ]).
    + injection H as H. unfold Connect_Encode in H.
      destruct (negb (QosLevel_IsValid (WillQos m))).
      * injection H as <- _. reflexivity.
      * eapply writeMessage_validation; eassumption.
    + unfold Subscribe_Encode in H.
      match type of H with
      | context [Subscribe_Encode_loop ?n ?i m ?b] =>
          destruct (Subscribe_Encode_loop n i m b); try discriminate
      end.
      injection H as H. eapply writeMessage_validation; eassumption.
Qed.

(** A [Connect] with will-QoS 2 and QoS level 3 in its header. *)
Lemma Encode_validation_before_write_witness :
  Encode (IsConnect (mkConnect (mkHeader false false 3) "MQIsdp" 3 false false
                       true 2 10 "id" "" "" false false "" "")) newBuffer
  = Ok (newBuffer, Some badQosError).
Proof.
  apply (proj1 (Encode_validation_before_write
                  (IsConnect (mkConnect (mkHeader false false 3) "MQIsdp" 3
                                false false true 2 10 "id" "" "" false false
                                "" ""))
                  newBuffer)).
  - reflexivity.
  - intros c H. injection H as <-. reflexivity.
  - intros s H. discriminate H.
Defined.

(** ** The first octet of every encoder of [messages.go] *)

(** Whatever the message, an [Encode] that ends in [writeMessage] and
    returns a nil error has written, first, the octet with the type nibble
    of [Connect] and the flags of the message's header. *)
Lemma Encode_first_octet (m : Message) (w w' : Writer) :
  viaWriteMessage m = true ->
  Encode m w = Ok (w', None) ->
  exists tail,
    written w' =
      written w
      ++ byte_of_Z (16 * MsgConnect + 8 * boolToByte (DupFlag (headerOf m))
                    + 2 * Header_QosLevel (headerOf m)
                    + boolToByte (Retain (headerOf m))) :: tail.
Proof.
  intros Hv H.
  destruct m; try discriminate Hv; unfold_methods_in H; cbn [headerOf];
    try (injection H as H;
         unfold ConnAck_Encode, Publish_Encode, SubAck_Encode,
           Unsubscribe_Encode, AckCommon_Encode in H;
         apply writeMessage_octets in H; rewrite H; eexists; reflexivity).
  - injection H as H. unfold Connect_Encode in H.
    destruct (negb (QosLevel_IsValid (WillQos m))); [discriminate|].
    apply writeMessage_octets in H. rewrite H. eexists. reflexivity.
  - unfold Subscribe_Encode in H.
    match type of H with
    | context [Subscribe_Encode_loop ?n ?i m ?b] =>
        destruct (Subscribe_Encode_loop n i m b); try discriminate
    end.
    injection H as H.
    apply writeMessage_octets in H. rewrite H. eexists. reflexivity.
Qed.

(** ** Primitive reads *)

Lemma length_list_byte_of_string (s : string) :
  List.length (list_byte_of_string s) = String.length s.
Proof.
  unfold list_byte_of_string. rewrite length_map.
  induction s as [|c s IH]; cbn; [reflexivity | f_equal; exact IH].
Qed.

Lemma length_string_of_list_byte (l : list byte) :
  String.length (string_of_list_byte l) = List.length l.
Proof.
  rewrite <- length_list_byte_of_string, list_byte_of_string_of_list_byte.
  reflexivity.
Qed.

Lemma len_app {A : Type} (l1 l2 : list A) : len (l1 ++ l2) = len l1 + len l2.
Proof. unfold len. rewrite length_app. lia. Qed.

Lemma len_nonneg {A : Type} (l : list A) : 0 <= len l.
Proof. unfold len. lia. Qed.

Lemma len_setString (s : string) : len (setString s []) = 2 + strlen s.
Proof.
  unfold setString, setUint16. rewrite len_app. unfold len, strlen.
  rewrite length_list_byte_of_string. cbn. lia.
Qed.

(** A primitive read either raises the fault of a short packet or source,
    or takes its octets from the front of the source and their number from
    the budget, which it never overdraws. *)
Lemma getUint8_spec (st : dstate) :
  getUint8 st = Raise TruncatedStreamError
  \/ exists b r',
       src st = b :: r' /\ 1 <= packetRemaining st
       /\ getUint8 st = Ok (Z_of_byte b, mkDstate r' (packetRemaining st - 1)).
Proof.
  unfold getUint8. destruct (packetRemaining st <? 1) eqn:E; [auto|].
  apply Z.ltb_ge in E. destruct (src st) as [|b r']; [auto|].
  right. exists b, r'. auto.
Qed.

Lemma getUint16_spec (st : dstate) :
  getUint16 st = Raise TruncatedStreamError
  \/ exists b1 b0 r',
       src st = b1 :: b0 :: r' /\ 2 <= packetRemaining st
       /\ getUint16 st = Ok (Z_of_byte b1 * 256 + Z_of_byte b0,
                             mkDstate r' (packetRemaining st - 2)).
Proof.
  unfold getUint16. destruct (packetRemaining st <? 2) eqn:E; [auto|].
  apply Z.ltb_ge in E. destruct (src st) as [|b1 [|b0 r']]; [auto|auto|].
  right. exists b1, b0, r'. auto.
Qed.

Lemma setUint16_bytes (b1 b0 : byte) :
  setUint16 (Z_of_byte b1 * 256 + Z_of_byte b0) [] = [b1; b0].
Proof.
  pose proof (Z_of_byte_range b1). pose proof (Z_of_byte_range b0).
  unfold setUint16, wrap16. rewrite Z.mod_small by lia.
  rewrite Z.div_add_l, Z.div_small, Z.add_0_r by lia.
  rewrite Z.add_comm, Z.mod_add, Z.mod_small by lia.
  rewrite !byte_of_Z_of_byte. reflexivity.
Qed.

Lemma getString_spec (st : dstate) :
  getString st = Raise TruncatedStreamError
  \/ exists s r',
       src st = setString s [] ++ r' /\ 2 + strlen s <= packetRemaining st
       /\ getString st = Ok (s, mkDstate r' (packetRemaining st - 2 - strlen s)).
Proof.
  unfold getString, bind.
  destruct (getUint16_spec st) as [-> | (b1 & b0 & r1 & Hsrc & Hb & ->)]; [auto|].
  cbn [packetRemaining src].
  pose proof (Z_of_byte_range b1). pose proof (Z_of_byte_range b0).
  set (strLen := Z_of_byte b1 * 256 + Z_of_byte b0) in *.
  destruct (packetRemaining st - 2 <? strLen) eqn:E; [auto|].
  apply Z.ltb_ge in E.
  destruct (ReadFull r1 (Z.to_nat strLen)) as [[b r']|e] eqn:R; [|auto].
  apply ReadFull_ok in R as [-> Hlen].
  right. exists (string_of_list_byte b), r'.
  assert (Hs : strlen (string_of_list_byte b) = strLen).
  { unfold strlen. rewrite length_string_of_list_byte, Hlen. lia. }
  rewrite Hs. repeat split.
  - rewrite Hsrc. unfold setString. rewrite Hs. subst strLen.
    rewrite setUint16_bytes, list_byte_of_string_of_list_byte. reflexivity.
  - lia.
Qed.



Ltac read_getString st :=
  let s := fresh "s" in let r := fresh "r" in
  let Hsrc := fresh "Hsrc" in let Hb := fresh "Hb" in
  destruct (getString_spec st) as [-> | (s & r & Hsrc & Hb & ->)];
  [try reflexivity | cbn [src packetRemaining] in *].

Ltac read_getUint16 st :=
  let b1 := fresh "b" in let b0 := fresh "b" in let r := fresh "r" in
  let Hsrc := fresh "Hsrc" in let Hb := fresh "Hb" in
  destruct (getUint16_spec st) as [-> | (b1 & b0 & r & Hsrc & Hb & ->)];
  [try reflexivity | cbn [src packetRemaining] in *].

Ltac read_getUint8 st :=
  let b := fresh "b" in let r := fresh "r" in
  let Hsrc := fresh "Hsrc" in let Hb := fresh "Hb" in
  destruct (getUint8_spec st) as [-> | (b & r & Hsrc & Hb & ->)];
  [try reflexivity | cbn [src packetRemaining] in *].

(** One read of the straight-line code in front of the goal. *)
Ltac read_next :=
  unfold bind at 1;
  match goal with
  | |- context [match getString ?st with _ => _ end] => read_getString st
  | |- context [match getUint16 ?st with _ => _ end] => read_getUint16 st
  | |- context [match getUint8 ?st with _ => _ end] => read_getUint8 st
  end.

(** ** The decoding loops *)

Lemma SubAck_Decode_loop_sound (n : nat) :
  forall (acc : list QosLevel) (st : dstate),
    (Z.to_nat (packetRemaining st) <= n)%nat ->
    sound (SubAck_Decode_loop n acc st).
Proof.
  induction n as [|n IH]; intros acc st Hn; cbn [SubAck_Decode_loop];
    destruct (packetRemaining st >? 0) eqn:E; try exact I;
    apply Z.gtb_lt in E; [lia|].
  read_next. apply IH. cbn. lia.
Qed.

Lemma Unsubscribe_Decode_loop_sound (n : nat) :
  forall (acc : list string) (st : dstate),
    (Z.to_nat (packetRemaining st) <= n)%nat ->
    sound (Unsubscribe_Decode_loop n acc st).
Proof.
  induction n as [|n IH]; intros acc st Hn; cbn [Unsubscribe_Decode_loop];
    destruct (packetRemaining st >? 0) eqn:E; try exact I;
    apply Z.gtb_lt in E; [lia|].
  read_next. apply IH. cbn. unfold strlen in *. lia.
Qed.

Lemma Subscribe_Decode_loop_sound (n : nat) :
  forall (topics : list string) (acc : list QosLevel) (st : dstate),
    (Z.to_nat (packetRemaining st) <= n)%nat ->
    sound (Subscribe_Decode_loop n topics acc st).
Proof.
  induction n as [|n IH]; intros topics acc st Hn; cbn [Subscribe_Decode_loop];
    destruct (packetRemaining st >? 0) eqn:E; try exact I;
    apply Z.gtb_lt in E; [lia|].
  read_next. read_next. apply IH. cbn. unfold strlen in *. lia.
Qed.

(** ** Decoders never let a fault out *)

Lemma msound_ret {A : Type} (a : A) : msound (ret a).
Proof. intros st. exact I. Qed.


Lemma msound_getUint8 : msound getUint8.
Proof. intros st. destruct (getUint8_spec st) as [-> | (b & r & _ & _ & ->)]; cbn; auto. Qed.

Lemma msound_getUint16 : msound getUint16.
Proof.
  intros st.
  destruct (getUint16_spec st) as [-> | (b1 & b0 & r & _ & _ & ->)]; cbn; auto.
Qed.

Lemma msound_getString : msound getString.
Proof. intros st. destruct (getString_spec st) as [-> | (s & r & _ & _ & ->)]; cbn; auto. Qed.


Lemma msound_Subscribe_loop :
  msound (fun st => Subscribe_Decode_loop (Z.to_nat (packetRemaining st)) [] [] st).
Proof. intros st. apply Subscribe_Decode_loop_sound. lia. Qed.

Lemma msound_SubAck_loop :
  msound (fun st => SubAck_Decode_loop (Z.to_nat (packetRemaining st)) [] st).
Proof. intros st. apply SubAck_Decode_loop_sound. lia. Qed.

Lemma msound_Unsubscribe_loop :
  msound (fun st => Unsubscribe_Decode_loop (Z.to_nat (packetRemaining st)) [] st).
Proof. intros st. apply Unsubscribe_Decode_loop_sound. lia. Qed.

Create HintDb decode.
#[local] Hint Resolve msound_ret msound_getUint8 msound_getUint16
  msound_getString msound_Subscribe_loop msound_SubAck_loop
  msound_Unsubscribe_loop : decode.








(** What [Publish.Decode] does, case by case.  When it succeeds, the source
    began with the topic field, the message identifier when the receiver's
    QoS level has one, and the data, whose length is what the budget leaves
    after those fields; every failure is that of a short packet or source. *)
Lemma Publish_Decode_body_spec (msg : Publish) (st : dstate) :
  match Publish_Decode_body msg st with
  | Ok (inl msg', st') =>
      exists id : list byte,
        src st = setString (TopicName msg') [] ++ id ++ Data msg' ++ src st'
        /\ len id = (if QosLevel_HasId (Header_QosLevel (Publish_Header msg))
                     then 2 else 0)
        /\ len (Data msg') = packetRemaining st - (2 + strlen (TopicName msg')) - len id
        /\ Publish_Header msg' = Publish_Header msg
  | Ok (inr e, _) => e = TruncatedStreamError
  | Raise e => e = TruncatedStreamError
  | Crash | Starved => False
  end.
Proof.
  unfold Publish_Decode_body.
  read_next. unfold bind at 1. cbn [Publish_Header TopicName Publish_MessageId Data].
  destruct (QosLevel_HasId (Header_QosLevel (Publish_Header msg))).
  - read_next. cbn [ret packetRemaining src].
    match goal with
    | |- context [?x <? 0] => destruct (x <? 0) eqn:E
    end; [apply Z.ltb_lt in E; lia|].
    match goal with
    | |- context [ReadFull ?r ?n] => destruct (ReadFull r n) as [[data r']|e] eqn:R
    end.
    + apply ReadFull_ok in R as [-> Hlen].
      cbn [TopicName Data Publish_Header src].
      exists [b; b0]. split; [|split; [|split]]; try reflexivity.
      * rewrite Hsrc, Hsrc0. reflexivity.
      * change (len [b; b0]) with 2. unfold len. rewrite Hlen. lia.
    + apply ReadFull_err in R as [-> _]. reflexivity.
  - cbn [ret packetRemaining src].
    match goal with
    | |- context [?x <? 0] => destruct (x <? 0) eqn:E
    end; [apply Z.ltb_lt in E; lia|].
    match goal with
    | |- context [ReadFull ?r ?n] => destruct (ReadFull r n) as [[data r']|e] eqn:R
    end.
    + apply ReadFull_ok in R as [-> Hlen].
      cbn [TopicName Data Publish_Header src].
      exists []. split; [|split; [|split]]; try reflexivity.
      * rewrite Hsrc. reflexivity.
      * change (len (@nil byte)) with 0. unfold len. rewrite Hlen. lia.
    + apply ReadFull_err in R as [-> _]. reflexivity.
Qed.










(** ** ConnAck return codes *)

(** C6: once [ConnAck.Decode] has read the reserved octet and the
    return-code octet, a return code outside 0 to 5 makes it fail with
    [badReturnCodeError], and a return code from 0 to 5 makes it succeed
    with that code. *)
Theorem ConnAck_Decode_return_code (msg : ConnAck) (reserved rc : byte)
  (r : Reader) (hdr : Header) (L : Z) :
  2 <= L ->
  (~ (0 <= Z_of_byte rc <= 5) ->
   ConnAck_Decode msg (reserved :: rc :: r) hdr L = Failure badReturnCodeError)
  /\ (0 <= Z_of_byte rc <= 5 ->
      ConnAck_Decode msg (reserved :: rc :: r) hdr L
      = Success (mkConnAck (ConnAck_Header msg) (Z_of_byte rc), r)).
Proof.
  intros HL.
  assert (E : ConnAck_Decode msg (reserved :: rc :: r) hdr L
              = if ReturnCode_IsValid (Z_of_byte rc)
                then Success (mkConnAck (ConnAck_Header msg) (Z_of_byte rc), r)
                else Failure badReturnCodeError).
  { unfold ConnAck_Decode, runBody, ConnAck_Decode_body, bind, getUint8.
    cbn [packetRemaining src].
    rewrite (proj2 (Z.ltb_ge L 1)) by lia. cbn [packetRemaining src].
    rewrite (proj2 (Z.ltb_ge (L - 1) 1)) by lia.
    cbn [packetRemaining src ConnAck_ReturnCode].
    destruct (ReturnCode_IsValid (Z_of_byte rc)); reflexivity. }
  rewrite E. unfold ReturnCode_IsValid. split; intros H.
  - destruct ((0 <=? Z_of_byte rc) && (Z_of_byte rc <=? 5)) eqn:V; [|reflexivity].
    apply andb_prop in V as [V1 V2]. apply Z.leb_le in V1, V2. lia.
  - destruct H as [H1 H2]. apply Z.leb_le in H1, H2. rewrite H1, H2. reflexivity.
Qed.

(** Return codes 6 and 5. *)
Lemma ConnAck_Decode_return_code_witness :
  ConnAck_Decode (mkConnAck Header_zero 0) [x00; x06] Header_zero 2
  = Failure badReturnCodeError
  /\ ConnAck_Decode (mkConnAck Header_zero 0) [x00; x05] Header_zero 2
     = Success (mkConnAck Header_zero 5, []).
Proof.
  split.
  - apply (proj1 (ConnAck_Decode_return_code (mkConnAck Header_zero 0)
                    x00 x06 [] Header_zero 2 ltac:(lia))).
    vm_compute. intros [_ H]. apply H. reflexivity.
  - apply (proj2 (ConnAck_Decode_return_code (mkConnAck Header_zero 0)
                    x00 x05 [] Header_zero 2 ltac:(lia))).
    vm_compute. split; discriminate.
Defined.

(** ** Publish payload *)

(** C7: when [Publish.Decode] succeeds with budget [L], the data is [L]
    minus the topic field ([2] plus the topic length) minus the two octets
    of the message identifier when the QoS level of the message has one;
    the source began with exactly the topic field, that identifier and the
    data, with no length in front of the data. *)
Theorem Publish_Decode_data (msg msg' : Publish) (r r' : Reader) (hdr : Header)
  (L : Z) :
  Publish_Decode msg r hdr L = Success (msg', r') ->
  let idLen :=
    if QosLevel_HasId (Header_QosLevel (Publish_Header msg')) then 2 else 0 in
  len (Data msg') = L - (2 + strlen (TopicName msg')) - idLen
  /\ Publish_Header msg' = Publish_Header msg
  /\ exists id : list byte,
       len id = idLen
       /\ r = setString (TopicName msg') [] ++ id ++ Data msg' ++ r'.
Proof.
  unfold Publish_Decode, runBody.
  pose proof (Publish_Decode_body_spec msg (mkDstate r L)) as H.
  destruct (Publish_Decode_body msg (mkDstate r L)) as [[[m'|e] st']|e| |];
    cbn [recoverError]; try discriminate.
  intros E. injection E as <- <-.
  destruct H as (id & Hsrc & Hid & Hdata & Hhdr).
  cbn [src packetRemaining] in *. cbv zeta. rewrite Hhdr, <- Hid.
  split; [exact Hdata|]. split; [reflexivity|].
  exists id. split; [reflexivity | exact Hsrc].
Qed.

(** A QoS 1 receiver, topic [a], identifier 7, two octets of data, and one
    octet of the next packet left in the source. *)
Lemma Publish_Decode_data_witness :
  let msg' := mkPublish (mkHeader false false 1) "a" 7 [x41; x42] in
  len (Data msg') = 7 - (2 + strlen (TopicName msg')) - 2.
Proof.
  exact (proj1 (Publish_Decode_data
                  (mkPublish (mkHeader false false 1) "" 0 [])
                  (mkPublish (mkHeader false false 1) "a" 7 [x41; x42])
                  [x00; x01; x61; x00; x07; x41; x42; xff] [xff]
                  Header_zero 7 eq_refl)).
Defined.

(** ** Granted QoS levels *)

Lemma land_3_range (b : Z) : 0 <= Z.land b 3 <= 3.
Proof.
  assert (E : Z.land b 3 = b mod 4).
  { change 3 with (Z.ones 2). rewrite Z.land_ones by lia. reflexivity. }
  rewrite E. pose proof (Z.mod_pos_bound b 4). lia.
Qed.

Lemma SubAck_Decode_loop_range (n : nat) :
  forall (acc acc' : list QosLevel) (st st' : dstate),
    Forall (fun q => 0 <= q <= 3) acc ->
    SubAck_Decode_loop n acc st = Ok (acc', st') ->
    Forall (fun q => 0 <= q <= 3) acc'.
Proof.
  induction n as [|n IH]; intros acc acc' st st' Hacc; cbn [SubAck_Decode_loop];
    destruct (packetRemaining st >? 0); try discriminate;
    try (intros E; injection E as <- _; exact Hacc).
  unfold bind at 1.
  destruct (getUint8_spec st) as [-> | (b & r & _ & _ & ->)]; [discriminate|].
  apply IH. apply Forall_app. split; [exact Hacc|].
  constructor; [apply land_3_range | constructor].
Qed.

(** C9: every element of [TopicsQos] after a successful [SubAck.Decode] is
    from 0 to 3. *)
Theorem SubAck_Decode_TopicsQos_range (msg msg' : SubAck) (r r' : Reader)
  (hdr : Header) (L : Z) :
  SubAck_Decode msg r hdr L = Success (msg', r') ->
  Forall (fun q => 0 <= q <= 3) (SubAck_TopicsQos msg').
Proof.
  unfold SubAck_Decode, runBody, SubAck_Decode_body.
  unfold bind at 1.
  destruct (getUint16_spec (mkDstate r L)) as [-> | (b1 & b0 & r1 & _ & _ & ->)];
    [discriminate|].
  unfold bind at 1. cbn [packetRemaining].
  destruct (SubAck_Decode_loop (Z.to_nat (L - 2)) [] (mkDstate r1 (L - 2)))
    as [[acc st']|e| |] eqn:E; cbn [ret recoverError]; try discriminate.
  intros H. injection H as <- _. cbn [SubAck_TopicsQos].
  eapply SubAck_Decode_loop_range; [constructor | exact E].
Qed.

(** Granted-QoS octets [ff 02 80] come out as 3, 2 and 0. *)
Lemma SubAck_Decode_TopicsQos_range_witness :
  SubAck_Decode (mkSubAck Header_zero 0 []) [x00; x01; xff; x02; x80]
    Header_zero 5 = Success (mkSubAck Header_zero 1 [3; 2; 0], [])
  /\ Forall (fun q => 0 <= q <= 3) [3; 2; 0].
Proof.
  split; [reflexivity|].
  exact (SubAck_Decode_TopicsQos_range (mkSubAck Header_zero 0 [])
           (mkSubAck Header_zero 1 [3; 2; 0]) [x00; x01; xff; x02; x80] []
           Header_zero 5 eq_refl).
Defined.

(** * Further properties of [messages.go] *)

(** ** Appending to a buffer *)

Lemma setUint8_app (v : Z) (buf : Buffer) : setUint8 v buf = buf ++ setUint8 v [].
Proof. reflexivity. Qed.

Lemma setUint16_app (v : Z) (buf : Buffer) :
  setUint16 v buf = buf ++ setUint16 v [].
Proof. reflexivity. Qed.

Lemma setString_app (s : string) (buf : Buffer) :
  setString s buf = buf ++ setString s [].
Proof. unfold setString, setUint16. rewrite <- app_assoc. reflexivity. Qed.

Lemma len_setUint16 (v : Z) : len (setUint16 v []) = 2.
Proof. reflexivity. Qed.

Lemma len_cons {A : Type} (a : A) (l : list A) : len (a :: l) = 1 + len l.
Proof. unfold len. cbn [List.length]. lia. Qed.

Lemma strlen_nonneg (s : string) : 0 <= strlen s.
Proof. unfold strlen. lia. Qed.

(** ** Reading back what was written *)

Lemma ReadFull_app (l r : list byte) :
  ReadFull (l ++ r) (List.length l) = inl (l, r).
Proof.
  unfold ReadFull.
  assert (H : (List.length (l ++ r) <? List.length l)%nat = false).
  { apply Nat.ltb_ge. rewrite length_app. lia. }
  rewrite H, firstn_app, skipn_app, firstn_all, skipn_all, Nat.sub_diag.
  simpl. rewrite app_nil_r. reflexivity.
Qed.

Lemma getUint8_cons (b : byte) (r : Reader) (L : Z) :
  1 <= L -> getUint8 (mkDstate (b :: r) L) = Ok (Z_of_byte b, mkDstate r (L - 1)).
Proof.
  intros H. unfold getUint8. cbn [packetRemaining src].
  rewrite (proj2 (Z.ltb_ge L 1)) by lia. reflexivity.
Qed.

Lemma getUint16_setUint16 (v : Z) (r : Reader) (L : Z) :
  uint16 v -> 2 <= L ->
  getUint16 (mkDstate (setUint16 v [] ++ r) L) = Ok (v, mkDstate r (L - 2)).
Proof.
  intros Hv HL. unfold getUint16, setUint16, uint16, wrap16 in *.
  cbn [packetRemaining src app].
  rewrite (proj2 (Z.ltb_ge L 2)) by lia.
  rewrite Z.mod_small by lia.
  assert (0 <= v / 256 < 256).
  { split; [apply Z.div_pos; lia | apply Z.div_lt_upper_bound; lia]. }
  pose proof (Z.mod_pos_bound v 256 ltac:(lia)).
  rewrite !Z_of_byte_of_Z_small by lia.
  do 2 f_equal. pose proof (Z.div_mod v 256 ltac:(lia)). lia.
Qed.

Lemma getString_setString (s : string) (r : Reader) (L : Z) :
  string16 s -> 2 + strlen s <= L ->
  getString (mkDstate (setString s [] ++ r) L)
  = Ok (s, mkDstate r (L - 2 - strlen s)).
Proof.
  intros Hs HL. unfold string16 in Hs. pose proof (strlen_nonneg s).
  unfold getString, bind, setString. rewrite <- app_assoc.
  rewrite getUint16_setUint16 by (unfold uint16; lia).
  cbn [packetRemaining src].
  rewrite (proj2 (Z.ltb_ge (L - 2) (strlen s))) by lia.
  replace (Z.to_nat (strlen s)) with (List.length (list_byte_of_string s))
    by (rewrite length_list_byte_of_string; unfold strlen; lia).
  rewrite ReadFull_app, string_of_list_byte_of_string. reflexivity.
Qed.

(** ** The fixed header, there and back *)

Lemma decodeLength_chunks (L : Z) (rest : Reader) :
  0 <= L <= 268435455 ->
  decodeLength (encodeLength_chunks 5 L ++ rest) = Ok (L, rest).
Proof.
  intros HL. unfold decodeLength.
  rewrite decodeLength_loop_chunks
    by (try lia; change (128 ^ Z.of_nat 4) with 268435456; lia).
  do 2 f_equal. change (128 ^ 0) with 1. lia.
Qed.

(** The four fields of the first octet, as [Header.Decode] cuts them out. *)
Lemma Header_Decode_cons (hdr0 : Header) (b : byte) (r : Reader) :
  Header_Decode hdr0 (b :: r)
  = match decodeLength r with
    | Ok (L, r') =>
        Success (mkHeader (Z.land (Z_of_byte b) 8 >? 0)
                          (Z.land (Z_of_byte b) 1 >? 0)
                          (Z.shiftr (Z.land (Z_of_byte b) 6) 1),
                 Z.shiftr (Z.land (Z_of_byte b) 240) 4, L, r')
    | Raise e => Failure e
    | Crash => Escaped
    | Starved => Hung
    end.
Proof.
  unfold Header_Decode. change (ReadFull (b :: r) 1) with (@inl _ error ([b], r)).
  cbv iota beta. cbn [nth].
  destruct (decodeLength r) as [[L r']|e| |]; reflexivity.
Qed.

Lemma byte_fields (b : byte) :
  let z := Z_of_byte b in
  (Z.land z 8 >? 0) = Z.odd (z / 8)
  /\ (Z.land z 1 >? 0) = Z.odd z
  /\ Z.shiftr (Z.land z 6) 1 = (z / 2) mod 4
  /\ Z.shiftr (Z.land z 240) 4 = z / 16.
Proof. destruct b; repeat split; reflexivity. Qed.

(** X2: [Header.Decode] checks nothing: whatever the first octet, it succeeds as
    soon as a remaining length follows, with bits 7-4 as the message type (0
    and 15 included), bit 3 as the dup flag, bits 2-1 as the QoS level (3
    included) and bit 0 as the retain flag. *)
Theorem Header_Decode_fields (hdr0 : Header) (b : byte) (r r' : Reader) (L : Z) :
  decodeLength r = Ok (L, r') ->
  let z := Z_of_byte b in
  Header_Decode hdr0 (b :: r)
  = Success (mkHeader (Z.odd (z / 8)) (Z.odd z) ((z / 2) mod 4), z / 16, L, r')
  /\ 0 <= z / 16 <= 15
  /\ 0 <= (z / 2) mod 4 <= 3.
Proof.
  intros H z. rewrite Header_Decode_cons, H.
  destruct (byte_fields b) as (-> & -> & -> & ->). fold z.
  pose proof (Z_of_byte_range b). fold z in H0.
  split; [reflexivity|]. split.
  - split; [apply Z.div_pos; lia|].
    assert (z / 16 < 16) by (apply Z.div_lt_upper_bound; lia). lia.
  - pose proof (Z.mod_pos_bound (z / 2) 4). lia.
Qed.

(** The octet [f6]: type 15 and QoS level 3, both of which [Header.Encode]
    refuses. *)
Lemma Header_Decode_fields_witness :
  Header_Decode Header_zero [xf6; x00]
  = Success (mkHeader false false 3, 15, 0, []).
Proof.
  exact (proj1 (Header_Decode_fields Header_zero xf6 [x00] [] 0 eq_refl)).
Defined.

Lemma header_octet_fields (t : Z) (dup retain : bool) (qos : Z) :
  0 <= t < 16 -> 0 <= qos < 4 ->
  let z := 16 * t + 8 * boolToByte dup + 2 * qos + boolToByte retain in
  0 <= z < 256
  /\ (Z.land z 8 >? 0) = dup
  /\ (Z.land z 1 >? 0) = retain
  /\ Z.shiftr (Z.land z 6) 1 = qos
  /\ Z.shiftr (Z.land z 240) 4 = t.
Proof.
  intros Ht Hq.
  assert (Hts : t = 0 \/ t = 1 \/ t = 2 \/ t = 3 \/ t = 4 \/ t = 5 \/ t = 6
                \/ t = 7 \/ t = 8 \/ t = 9 \/ t = 10 \/ t = 11 \/ t = 12
                \/ t = 13 \/ t = 14 \/ t = 15) by lia.
  assert (Hqs : qos = 0 \/ qos = 1 \/ qos = 2 \/ qos = 3) by lia.
  destruct dup, retain;
    repeat (destruct Hts as [-> | Hts]); try subst t;
    repeat (destruct Hqs as [-> | Hqs]); try subst qos;
    cbv zeta; repeat split; try reflexivity; discriminate.
Qed.

Lemma QosLevel_IsValid_range (qos : Z) :
  QosLevel_IsValid qos = true -> 0 <= qos < 3.
Proof.
  unfold QosLevel_IsValid. intros H. apply andb_prop in H as [H1 H2].
  apply Z.leb_le in H1. apply Z.ltb_lt in H2. lia.
Qed.

Lemma MessageType_IsValid_range (t : Z) :
  MessageType_IsValid t = true -> 1 <= t < 15.
Proof.
  unfold MessageType_IsValid, MsgConnect, msgTypeFirstInvalid. intros H.
  apply andb_prop in H as [H1 H2].
  apply Z.geb_le in H1. apply Z.ltb_lt in H2. lia.
Qed.

(** What [Header.Encode] writes into an empty buffer. *)
Lemma Header_Encode_newBuffer (hdr : Header) (t L : Z) :
  QosLevel_IsValid (Header_QosLevel hdr) = true ->
  MessageType_IsValid t = true ->
  Header_Encode hdr newBuffer t L
  = (mkWriter (headerOctet t hdr :: encodeLength_chunks 5 L) [], None).
Proof.
  intros Hq Ht. unfold Header_Encode. rewrite Hq, Ht. cbn [negb].
  apply QosLevel_IsValid_range in Hq. apply MessageType_IsValid_range in Ht.
  rewrite header_octet by lia. reflexivity.
Qed.

Lemma Header_Decode_headerOctet (hdr hdr0 : Header) (t L : Z) (rest : Reader) :
  QosLevel_IsValid (Header_QosLevel hdr) = true ->
  MessageType_IsValid t = true ->
  0 <= L <= 268435455 ->
  Header_Decode hdr0 ((headerOctet t hdr :: encodeLength_chunks 5 L) ++ rest)
  = Success (hdr, t, L, rest).
Proof.
  intros Hq Ht HL.
  apply QosLevel_IsValid_range in Hq. apply MessageType_IsValid_range in Ht.
  cbn [app]. rewrite Header_Decode_cons, decodeLength_chunks by exact HL.
  unfold headerOctet.
  destruct (header_octet_fields t (DupFlag hdr) (Retain hdr) (Header_QosLevel hdr))
    as (Hz & Hd & Hr & Hqos & Htype); [lia | lia |].
  cbv zeta in *. rewrite Z_of_byte_of_Z_small by exact Hz.
  rewrite Hd, Hr, Hqos, Htype. destruct hdr; reflexivity.
Qed.

(** X1: the fixed header round trip: a header with a valid QoS level, a valid
    message type and a remaining length up to 268435455, written by
    [Header.Encode], is read back by [Header.Decode] as the same header,
    type and length, and the source is left at the octet after it. *)
Theorem Header_Decode_Encode (hdr hdr0 : Header) (t L : Z) (rest : Reader) :
  QosLevel_IsValid (Header_QosLevel hdr) = true ->
  MessageType_IsValid t = true ->
  0 <= L <= 268435455 ->
  exists w,
    Header_Encode hdr newBuffer t L = (w, None)
    /\ Header_Decode hdr0 (written w ++ rest) = Success (hdr, t, L, rest).
Proof.
  intros Hq Ht HL. eexists. split.
  - apply Header_Encode_newBuffer; assumption.
  - cbn [written]. apply Header_Decode_headerOctet; assumption.
Qed.

(** A [Publish]-type header with dup and QoS 2 and remaining length 300. *)
Lemma Header_Decode_Encode_witness :
  exists w,
    Header_Encode (mkHeader true false 2) newBuffer MsgPublish 300 = (w, None)
    /\ Header_Decode Header_zero (written w ++ [x01])
       = Success (mkHeader true false 2, MsgPublish, 300, [x01]).
Proof.
  apply (Header_Decode_Encode (mkHeader true false 2) Header_zero MsgPublish 300
           [x01]); [reflexivity | reflexivity | lia].
Defined.

(** ** Errors of the encoders *)




(** ** Two writes *)

Lemma writeMessage_newBuffer (hdr : Header) (payloadBuf : Buffer) :
  QosLevel_IsValid (Header_QosLevel hdr) = true ->
  writeMessage newBuffer hdr payloadBuf
  = (mkWriter (headerOctet MsgConnect hdr
               :: encodeLength_chunks 5 (to_int32 (len payloadBuf)) ++ payloadBuf)
       [], None).
Proof.
  intros Hq. unfold writeMessage.
  rewrite Header_Encode_newBuffer by (exact Hq || reflexivity).
  reflexivity.
Qed.

(** X4: [writeMessage] sends the fixed header and the payload in two calls of
    [Write].  When the sink refuses the first, nothing is written; when it
    takes the first and refuses the second, the error is returned with the
    fixed header already in the sink and no payload behind it. *)
Theorem writeMessage_two_writes (w : Writer) (hdr : Header) (payloadBuf : Buffer)
  (code : Z) (rest : list (option Z)) :
  QosLevel_IsValid (Header_QosLevel hdr) = true ->
  (answers w = Some code :: rest ->
   writeMessage w hdr payloadBuf
   = (mkWriter (written w) rest, Some (IOError code)))
  /\ (answers w = None :: Some code :: rest ->
      writeMessage w hdr payloadBuf
      = (mkWriter (written w
                   ++ headerOctet MsgConnect hdr
                      :: encodeLength_chunks 5 (to_int32 (len payloadBuf)))
           rest,
         Some (IOError code))).
Proof.
  intros Hq.
  pose proof (QosLevel_IsValid_range _ Hq) as Hr.
  unfold writeMessage, Header_Encode. rewrite Hq. cbn [negb].
  change (negb (MessageType_IsValid MsgConnect)) with false. cbv iota.
  rewrite header_octet by (unfold MsgConnect; lia).
  unfold Write, encodeLength, headerOctet.
  split; intros Ha; rewrite Ha; cbn [answers written app]; reflexivity.
Qed.

(** A sink that takes one write and then fails with code 5. *)
Lemma writeMessage_two_writes_witness :
  writeMessage (mkWriter [] [None; Some 5]) Header_zero [x00; x00]
  = (mkWriter [x10; x02] [], Some (IOError 5)).
Proof.
  exact (proj2 (writeMessage_two_writes (mkWriter [] [None; Some 5]) Header_zero
                  [x00; x00] 5 [] eq_refl) eq_refl).
Defined.

(** ** What an encoder asks of its message *)

Lemma writeMessage_nil_error (w w' : Writer) (hdr : Header) (buf : Buffer) :
  writeMessage w hdr buf = (w', None) ->
  QosLevel_IsValid (Header_QosLevel hdr) = true.
Proof.
  unfold writeMessage, Header_Encode.
  destruct (QosLevel_IsValid (Header_QosLevel hdr)); [reflexivity|].
  cbn [negb]. discriminate.
Qed.

Lemma Subscribe_Encode_loop_lengths (msg : Subscribe) (buf buf' : Buffer) :
  Subscribe_Encode_loop (List.length (Subscribe_Topics msg)) 0 msg buf = Ok buf' ->
  (List.length (Subscribe_Topics msg) <= List.length (Subscribe_TopicsQos msg))%nat.
Proof.
  intros H.
  destruct (Nat.le_gt_cases (List.length (Subscribe_Topics msg))
              (List.length (Subscribe_TopicsQos msg))) as [Hle|Hgt]; [exact Hle|].
  rewrite Subscribe_Encode_loop_crash in H by (cbn; lia). discriminate.
Qed.

(** X5: into a buffer, an encoder of [messages.go] returns a nil error exactly
    when the header's QoS level is valid, the will-QoS of a [Connect] is
    valid, and a [Subscribe] has a QoS entry for every topic.  Nothing else
    is checked: not a return code, not an identifier, not the length of a
    string or of the payload. *)
Theorem Encode_succeeds_iff (m : Message) :
  viaWriteMessage m = true ->
  ((exists w, Encode m newBuffer = Ok (w, None)) <-> encodable m).
Proof.
  intros Hv. unfold encodable. split.
  - intros [w H].
    destruct m; try discriminate Hv; unfold_methods_in H; cbn [headerOf];
      try (injection H as H;
           unfold ConnAck_Encode, Publish_Encode, SubAck_Encode,
             Unsubscribe_Encode, AckCommon_Encode in H;
           apply writeMessage_nil_error in H; auto).
    + injection H as H. unfold Connect_Encode in H.
      destruct (QosLevel_IsValid (WillQos m)); cbn [negb] in H; [|discriminate].
      apply writeMessage_nil_error in H. auto.
    + unfold Subscribe_Encode in H.
      match type of H with
      | context [Subscribe_Encode_loop ?n ?i m ?b] =>
          destruct (Subscribe_Encode_loop n i m b) as [buf'| | |] eqn:E;
            try discriminate
      end.
      injection H as H. apply writeMessage_nil_error in H.
      apply Subscribe_Encode_loop_lengths in E. auto.
  - intros [Hq Hk].
    destruct m; try discriminate Hv; unfold_methods; cbn [headerOf] in Hq;
      try (unfold ConnAck_Encode, Publish_Encode, SubAck_Encode,
             Unsubscribe_Encode, AckCommon_Encode;
           rewrite writeMessage_newBuffer by exact Hq; eauto).
    + unfold Connect_Encode. rewrite Hk. cbn [negb].
      rewrite writeMessage_newBuffer by exact Hq. eauto.
    + unfold Subscribe_Encode.
      match goal with
      | |- context [Subscribe_Encode_loop ?n ?i m ?b] =>
          destruct (Subscribe_Encode_loop_ok m n i b) as [buf' ->]
      end; try (cbn; lia).
      rewrite writeMessage_newBuffer by exact Hq. eauto.
Qed.

(** A [ConnAck] with the return code 200 is encoded, and one that is
    encoded has a valid QoS level. *)
Lemma Encode_succeeds_iff_witness :
  (exists w, Encode (IsConnAck (mkConnAck Header_zero 200)) newBuffer = Ok (w, None))
  /\ encodable (IsConnAck (mkConnAck (mkHeader true true 2) 6)).
Proof.
  split.
  - apply (proj2 (Encode_succeeds_iff (IsConnAck (mkConnAck Header_zero 200))
                    eq_refl)).
    split; [reflexivity | exact I].
  - apply (proj1 (Encode_succeeds_iff
                    (IsConnAck (mkConnAck (mkHeader true true 2) 6)) eq_refl)).
    eexists. reflexivity.
Defined.

(** ** Connect, there and back *)

Lemma Connect_Encode_payload (msg : Connect) (w : Writer) :
  Connect_Encode msg w
  = if negb (QosLevel_IsValid (WillQos msg)) then (w, Some badWillQosError)
    else writeMessage w (Connect_Header msg) (Connect_payload msg).
Proof. reflexivity. Qed.

Lemma connect_flags_fields (u p wr wf cs : bool) (q : Z) :
  0 <= q < 4 ->
  let f :=
    Z.lor (Z.lor (Z.lor (Z.lor (Z.lor
      (wrap8 (Z.shiftl (boolToByte u) 7))
      (wrap8 (Z.shiftl (boolToByte p) 6)))
      (wrap8 (Z.shiftl (boolToByte wr) 5)))
      (wrap8 (Z.shiftl (wrap8 q) 3)))
      (wrap8 (Z.shiftl (boolToByte wf) 2)))
      (wrap8 (Z.shiftl (boolToByte cs) 1)) in
  0 <= f < 256
  /\ (Z.land f 128 >? 0) = u
  /\ (Z.land f 64 >? 0) = p
  /\ (Z.land f 32 >? 0) = wr
  /\ Z.shiftr (Z.land f 24) 3 = q
  /\ (Z.land f 4 >? 0) = wf
  /\ (Z.land f 2 >? 0) = cs.
Proof.
  intros Hq.
  assert (Hqs : q = 0 \/ q = 1 \/ q = 2 \/ q = 3) by lia.
  destruct u, p, wr, wf, cs;
    repeat (destruct Hqs as [-> | Hqs]); try subst q;
    cbv zeta; repeat split; try reflexivity; discriminate.
Qed.

(** Rewrites every write into a buffer that is not empty as an append. *)
Ltac push_buffers :=
  repeat match goal with
         | |- context [setString ?s ?b] =>
             lazymatch b with
             | @nil _ => fail
             | _ => rewrite (setString_app s b)
             end
         | |- context [setUint16 ?s ?b] =>
             lazymatch b with
             | @nil _ => fail
             | _ => rewrite (setUint16_app s b)
             end
         | |- context [setUint8 ?s ?b] =>
             lazymatch b with
             | @nil _ => fail
             | _ => rewrite (setUint8_app s b)
             end
         end.

(** The payload of a [Connect], field after field. *)
Lemma Connect_payload_fields (msg : Connect) :
  Connect_payload msg
  = setString (ProtocolName msg) [] ++ setUint8 (ProtocolVersion msg) []
    ++ [byte_of_Z
          (Z.lor (Z.lor (Z.lor (Z.lor (Z.lor
             (wrap8 (Z.shiftl (boolToByte (UsernameFlag msg)) 7))
             (wrap8 (Z.shiftl (boolToByte (PasswordFlag msg)) 6)))
             (wrap8 (Z.shiftl (boolToByte (WillRetain msg)) 5)))
             (wrap8 (Z.shiftl (wrap8 (WillQos msg)) 3)))
             (wrap8 (Z.shiftl (boolToByte (WillFlag msg)) 2)))
             (wrap8 (Z.shiftl (boolToByte (CleanSession msg)) 1)))]
    ++ setUint16 (KeepAliveTimer msg) [] ++ setString (ClientId msg) []
    ++ (if WillFlag msg
        then setString (WillTopic msg) [] ++ setString (WillMessage msg) []
        else [])
    ++ (if UsernameFlag msg then setString (Username msg) [] else [])
    ++ (if PasswordFlag msg then setString (Password msg) [] else []).
Proof.
  unfold Connect_payload. cbv zeta.
  destruct (WillFlag msg), (UsernameFlag msg), (PasswordFlag msg);
    push_buffers;
    rewrite <- ?app_assoc, ?app_nil_r; reflexivity.
Qed.

(** One read, by a primitive, of a field that was written. *)
Ltac read_field :=
  unfold bind at 1;
  first
    [ rewrite getString_setString by (assumption || lia)
    | rewrite getUint16_setUint16 by (assumption || lia)
    | rewrite getUint8_cons by lia ];
  cbv beta iota.

Lemma Connect_Decode_payload (msg msg0 : Connect) (hdr : Header) (rest : Reader) :
  Connect_wf msg ->
  Connect_Decode msg0 (Connect_payload msg ++ rest) hdr (len (Connect_payload msg))
  = Success (Connect_withHeader Header_zero msg, rest).
Proof.
  intros [Hwq Hver Hka Hname Hcid Hwt Hwm Huser Hpass Hwill Hu Hp].
  apply QosLevel_IsValid_range in Hwq.
  rewrite Connect_payload_fields.
  destruct (connect_flags_fields (UsernameFlag msg) (PasswordFlag msg)
              (WillRetain msg) (WillFlag msg) (CleanSession msg) (WillQos msg))
    as (Hf & Fu & Fp & Fwr & Fq & Fwf & Fcs); [lia|].
  cbv zeta in Hf, Fu, Fp, Fwr, Fq, Fwf, Fcs.
  match type of Hf with 0 <= ?f < 256 => set (flags := f) in * end.
  unfold string16, uint8, uint16 in *.
  pose proof (strlen_nonneg (ProtocolName msg)).
  pose proof (strlen_nonneg (ClientId msg)).
  pose proof (strlen_nonneg (WillTopic msg)).
  pose proof (strlen_nonneg (WillMessage msg)).
  pose proof (strlen_nonneg (Username msg)).
  pose proof (strlen_nonneg (Password msg)).
  unfold Connect_withHeader.
  destruct (WillFlag msg) eqn:Ewf, (UsernameFlag msg) eqn:Eu,
           (PasswordFlag msg) eqn:Ep;
    try (destruct (Hwill eq_refl) as [-> ->]);
    try rewrite (Hu eq_refl); try rewrite (Hp eq_refl);
    rewrite ?app_nil_r;
    rewrite ?len_app, ?len_setString, ?len_setUint16, ?len_cons;
    change (len (@nil byte)) with 0;
    change (len (setUint8 (ProtocolVersion msg) [])) with 1;
    rewrite <- ?app_assoc;
    unfold Connect_Decode, runBody, Connect_Decode_body;
    unfold setUint8 at 1; cbn [app];
    read_field; read_field;
    rewrite (Z_of_byte_of_Z_small (ProtocolVersion msg)) by lia;
    read_field;
    rewrite (Z_of_byte_of_Z_small flags) by lia;
    read_field; read_field;
    rewrite Fu, Fp, Fwr, Fq, Fwf, Fcs;
    unfold bind, ret; cbv beta iota;
    repeat (rewrite getString_setString by (assumption || lia); cbv beta iota);
    cbn [recoverError src fst snd]; reflexivity.
Qed.

Lemma to_int32_small (z : Z) : 0 <= z < 2147483648 -> to_int32 z = z.
Proof.
  intros H. unfold to_int32. rewrite Z.mod_small by lia. lia.
Qed.

(** What a payload sent through [writeMessage] looks like to
    [Header.Decode]: the header of the message, the type of [Connect], the
    length of the payload, and the payload as the rest of the source. *)
Lemma writeMessage_Header_Decode (hdr hdr0 : Header) (payloadBuf : Buffer)
  (rest : Reader) :
  QosLevel_IsValid (Header_QosLevel hdr) = true ->
  len payloadBuf <= 268435455 ->
  exists w,
    writeMessage newBuffer hdr payloadBuf = (w, None)
    /\ Header_Decode hdr0 (written w ++ rest)
       = Success (hdr, MsgConnect, len payloadBuf, payloadBuf ++ rest).
Proof.
  intros Hq HL. pose proof (len_nonneg payloadBuf).
  eexists. split; [apply writeMessage_newBuffer, Hq|].
  cbn [written]. rewrite to_int32_small by lia.
  rewrite app_comm_cons, <- app_assoc.
  apply Header_Decode_headerOctet; [exact Hq | reflexivity | lia].
Qed.

Lemma Connect_payload_len (msg : Connect) :
  Connect_wf msg -> len (Connect_payload msg) <= 268435455.
Proof.
  intros [Hwq Hver Hka Hname Hcid Hwt Hwm Huser Hpass Hwill Hu Hp].
  unfold string16 in *. rewrite Connect_payload_fields.
  destruct (WillFlag msg), (UsernameFlag msg), (PasswordFlag msg);
    rewrite ?len_app, ?len_setString, ?len_setUint16, ?len_cons;
    change (len (@nil byte)) with 0;
    change (len (setUint8 (ProtocolVersion msg) [])) with 1; lia.
Qed.

(** X6: the round trip of [Connect], as [Test] checks it on one value: a
    [Connect] whose fields fit their wire fields, with a valid will-QoS and
    header QoS, and with empty strings where a flag is off, is encoded; the
    fixed header reads back as its header, and [Connect.Decode] on the rest
    gives the message back, with the zero header, leaving what follows the
    packet in the source. *)
Theorem Connect_wire_roundtrip (msg msg0 : Connect) (hdr0 : Header)
  (rest : Reader) :
  Connect_wf msg ->
  QosLevel_IsValid (Header_QosLevel (Connect_Header msg)) = true ->
  exists w L r,
    Connect_Encode msg newBuffer = (w, None)
    /\ Header_Decode hdr0 (written w ++ rest)
       = Success (Connect_Header msg, MsgConnect, L, r)
    /\ Connect_Decode msg0 r (Connect_Header msg) L
       = Success (Connect_withHeader Header_zero msg, rest).
Proof.
  intros Hwf Hq.
  destruct (writeMessage_Header_Decode (Connect_Header msg) hdr0
              (Connect_payload msg) rest Hq (Connect_payload_len msg Hwf))
    as (w & Hw & Hd).
  exists w, (len (Connect_payload msg)), (Connect_payload msg ++ rest).
  split; [|split].
  - rewrite Connect_Encode_payload, (wf_WillQos msg Hwf). exact Hw.
  - exact Hd.
  - apply Connect_Decode_payload, Hwf.
Qed.

Lemma testConnect_wf : Connect_wf testConnect.
Proof.
  constructor; try reflexivity; try (cbv; split; congruence);
    try (unfold string16; cbn; lia); intros H; discriminate H.
Qed.

(** The message of [Test], in front of one more octet. *)
Lemma Connect_wire_roundtrip_witness :
  exists w L r,
    Connect_Encode testConnect newBuffer = (w, None)
    /\ Header_Decode Header_zero (written w ++ [x2a])
       = Success (Header_zero, MsgConnect, L, r)
    /\ Connect_Decode Connect_zero r Header_zero L = Success (testConnect, [x2a]).
Proof.
  exact (Connect_wire_roundtrip testConnect Connect_zero Header_zero [x2a]
           testConnect_wf eq_refl).
Defined.

(** ** ConnAck, there and back *)

Lemma ConnAck_Decode_payload (msg0 : ConnAck) (rc : Z) (hdr : Header)
  (rest : Reader) (L : Z) :
  uint8 rc -> 2 <= L ->
  ConnAck_Decode msg0 (byte_of_Z 0 :: byte_of_Z rc :: rest) hdr L
  = if ReturnCode_IsValid rc
    then Success (mkConnAck (ConnAck_Header msg0) rc, rest)
    else Failure badReturnCodeError.
Proof.
  intros Hrc HL. unfold uint8 in Hrc.
  unfold ConnAck_Decode, runBody, ConnAck_Decode_body.
  read_field. read_field. rewrite Z_of_byte_of_Z_small by lia.
  cbn [ConnAck_ReturnCode].
  destruct (ReturnCode_IsValid rc); reflexivity.
Qed.

(** X7: [ConnAck.Encode] writes any return code; [ConnAck.Decode] gives back the
    codes 0 to 5 and fails with [badReturnCodeError] on the others, so a
    [ConnAck] with a return code above 5 can be sent but not received.  The
    header of the result is the receiver's. *)
Theorem ConnAck_wire (msg msg0 : ConnAck) (hdr0 : Header) (rest : Reader) :
  QosLevel_IsValid (Header_QosLevel (ConnAck_Header msg)) = true ->
  uint8 (ConnAck_ReturnCode msg) ->
  exists w L r,
    ConnAck_Encode msg newBuffer = (w, None)
    /\ Header_Decode hdr0 (written w ++ rest)
       = Success (ConnAck_Header msg, MsgConnect, L, r)
    /\ ConnAck_Decode msg0 r (ConnAck_Header msg) L
       = if ConnAck_ReturnCode msg <=? 5
         then Success (mkConnAck (ConnAck_Header msg0) (ConnAck_ReturnCode msg),
                       rest)
         else Failure badReturnCodeError.
Proof.
  intros Hq Hrc.
  destruct (writeMessage_Header_Decode (ConnAck_Header msg) hdr0
              (ConnAck_payload msg) rest Hq)
    as (w & Hw & Hd); [cbv; discriminate|].
  exists w, 2, (ConnAck_payload msg ++ rest).
  split; [exact Hw|]. split; [exact Hd|].
  unfold ConnAck_payload, setUint8. cbn [app].
  rewrite ConnAck_Decode_payload by (exact Hrc || lia).
  unfold ReturnCode_IsValid. unfold uint8 in Hrc.
  rewrite (proj2 (Z.leb_le 0 (ConnAck_ReturnCode msg))) by lia. reflexivity.
Qed.

(** The return codes 5 and 6. *)
Lemma ConnAck_wire_witness :
  (exists w L r,
     ConnAck_Encode (mkConnAck Header_zero 5) newBuffer = (w, None)
     /\ Header_Decode Header_zero (written w ++ [])
        = Success (Header_zero, MsgConnect, L, r)
     /\ ConnAck_Decode (mkConnAck Header_zero 0) r Header_zero L
        = Success (mkConnAck Header_zero 5, []))
  /\ (exists w L r,
        ConnAck_Encode (mkConnAck Header_zero 6) newBuffer = (w, None)
        /\ Header_Decode Header_zero (written w ++ [])
           = Success (Header_zero, MsgConnect, L, r)
        /\ ConnAck_Decode (mkConnAck Header_zero 0) r Header_zero L
           = Failure badReturnCodeError).
Proof.
  split.
  - apply (ConnAck_wire (mkConnAck Header_zero 5) (mkConnAck Header_zero 0)
             Header_zero []); [reflexivity | unfold uint8; simpl; lia].
  - apply (ConnAck_wire (mkConnAck Header_zero 6) (mkConnAck Header_zero 0)
             Header_zero []); [reflexivity | unfold uint8; simpl; lia].
Defined.

(** ** The five acknowledgements, there and back *)

(** X8: [AckCommon.Decode] reads the two octets of the identifier and nothing
    else, whatever budget beyond two it is given; the header of the result
    is the receiver's.  So an identifier up to 65535 written by
    [AckCommon.Encode] comes back. *)
Theorem AckCommon_wire (msg msg0 : AckCommon) (hdr0 : Header) (rest : Reader) :
  QosLevel_IsValid (Header_QosLevel (AckCommon_Header msg)) = true ->
  uint16 (AckCommon_MessageId msg) ->
  (exists w L r,
     AckCommon_Encode msg newBuffer = (w, None)
     /\ Header_Decode hdr0 (written w ++ rest)
        = Success (AckCommon_Header msg, MsgConnect, L, r)
     /\ AckCommon_Decode msg0 r (AckCommon_Header msg) L
        = Success (mkAckCommon (AckCommon_Header msg0) (AckCommon_MessageId msg),
                   rest))
  /\ (forall L, 2 <= L ->
        AckCommon_Decode msg0 (setUint16 (AckCommon_MessageId msg) [] ++ rest)
          hdr0 L
        = Success (mkAckCommon (AckCommon_Header msg0) (AckCommon_MessageId msg),
                   rest)).
Proof.
  intros Hq Hid.
  assert (G : forall hdr L, 2 <= L ->
            AckCommon_Decode msg0 (setUint16 (AckCommon_MessageId msg) [] ++ rest)
              hdr L
            = Success (mkAckCommon (AckCommon_Header msg0)
                         (AckCommon_MessageId msg), rest)).
  { intros hdr L HL. unfold AckCommon_Decode, runBody, AckCommon_Decode_body.
    read_field. reflexivity. }
  split; [|intros L HL; apply G, HL].
  destruct (writeMessage_Header_Decode (AckCommon_Header msg) hdr0
              (setUint16 (AckCommon_MessageId msg) []) rest Hq)
    as (w & Hw & Hd); [cbv; discriminate|].
  exists w, 2, (setUint16 (AckCommon_MessageId msg) [] ++ rest).
  split; [exact Hw|]. split; [exact Hd|]. apply G. lia.
Qed.

(** The identifier 515, and a budget of nine for a payload of two. *)
Lemma AckCommon_wire_witness :
  AckCommon_Decode (mkAckCommon Header_zero 0) [x02; x03; x07] Header_zero 9
  = Success (mkAckCommon Header_zero 515, [x07]).
Proof.
  apply (proj2 (AckCommon_wire (mkAckCommon Header_zero 515)
                  (mkAckCommon Header_zero 0) Header_zero [x07] eq_refl
                  ltac:(unfold uint16; simpl; lia)) 9).
  lia.
Defined.

(** ** Publish, there and back *)

(** The last step of [Publish.Decode]: the data is what the budget still
    covers. *)
Lemma ReadFull_budget (data rest : list byte) (L : Z) :
  L = len data ->
  (L <? 0) = false
  /\ ReadFull (data ++ rest) (Z.to_nat L) = inl (data, rest).
Proof.
  intros ->. unfold len. split; [apply Z.ltb_ge; lia|].
  rewrite Nat2Z.id. apply ReadFull_app.
Qed.

Lemma Publish_Decode_payload (msg msg0 : Publish) (hdr : Header) (rest : Reader) :
  string16 (TopicName msg) ->
  QosLevel_HasId (Header_QosLevel (Publish_Header msg0))
  = QosLevel_HasId (Header_QosLevel (Publish_Header msg)) ->
  (QosLevel_HasId (Header_QosLevel (Publish_Header msg)) = true ->
   uint16 (Publish_MessageId msg)) ->
  Publish_Decode msg0 (Publish_payload msg ++ rest) hdr (len (Publish_payload msg))
  = Success (mkPublish (Publish_Header msg0) (TopicName msg)
               (if QosLevel_HasId (Header_QosLevel (Publish_Header msg))
                then Publish_MessageId msg else Publish_MessageId msg0)
               (Data msg),
             rest).
Proof.
  intros Ht Hsame Hid. unfold string16 in Ht.
  pose proof (strlen_nonneg (TopicName msg)). pose proof (len_nonneg (Data msg)).
  unfold Publish_Decode, runBody, Publish_Decode_body, Publish_payload.
  cbn [Publish_Header TopicName Publish_MessageId Data]. rewrite Hsame.
  destruct (QosLevel_HasId (Header_QosLevel (Publish_Header msg))).
  - specialize (Hid eq_refl). rewrite setUint16_app.
    rewrite !len_app, len_setString, len_setUint16, <- !app_assoc.
    read_field. unfold bind, ret. cbv beta iota.
    rewrite getUint16_setUint16 by (assumption || lia). cbv beta iota.
    cbn [Publish_Header TopicName Publish_MessageId Data packetRemaining src].
    match goal with
    | |- context [ReadFull _ (Z.to_nat ?L)] =>
        destruct (ReadFull_budget (Data msg) rest L) as [-> ->]; [lia|]
    end.
    reflexivity.
  - rewrite !len_app, len_setString, <- !app_assoc.
    read_field. unfold bind, ret. cbv beta iota.
    cbn [Publish_Header TopicName Publish_MessageId Data packetRemaining src].
    match goal with
    | |- context [ReadFull _ (Z.to_nat ?L)] =>
        destruct (ReadFull_budget (Data msg) rest L) as [-> ->]; [lia|]
    end.
    reflexivity.
Qed.

(** X9: the round trip of [Publish] holds when the receiver already has the QoS
    kind of the message: a [Publish] with a topic of at most 65535 octets,
    an identifier up to 65535 when its QoS level has one, and a payload of
    at most 268435455 octets is encoded; the fixed header reads back, and
    [Publish.Decode] on a receiver whose own QoS level has an identifier
    exactly when the message's has gives topic, identifier and data back.
    The header of the result is the receiver's, and without an identifier on
    the wire the receiver's identifier stays. *)
Theorem Publish_wire_roundtrip (msg msg0 : Publish) (hdr0 : Header)
  (rest : Reader) :
  QosLevel_IsValid (Header_QosLevel (Publish_Header msg)) = true ->
  string16 (TopicName msg) ->
  (QosLevel_HasId (Header_QosLevel (Publish_Header msg)) = true ->
   uint16 (Publish_MessageId msg)) ->
  len (Publish_payload msg) <= 268435455 ->
  QosLevel_HasId (Header_QosLevel (Publish_Header msg0))
  = QosLevel_HasId (Header_QosLevel (Publish_Header msg)) ->
  exists w L r,
    Publish_Encode msg newBuffer = (w, None)
    /\ Header_Decode hdr0 (written w ++ rest)
       = Success (Publish_Header msg, MsgConnect, L, r)
    /\ Publish_Decode msg0 r (Publish_Header msg) L
       = Success (mkPublish (Publish_Header msg0) (TopicName msg)
                    (if QosLevel_HasId (Header_QosLevel (Publish_Header msg))
                     then Publish_MessageId msg else Publish_MessageId msg0)
                    (Data msg),
                  rest).
Proof.
  intros Hq Ht Hid HL Hsame.
  destruct (writeMessage_Header_Decode (Publish_Header msg) hdr0
              (Publish_payload msg) rest Hq HL) as (w & Hw & Hd).
  exists w, (len (Publish_payload msg)), (Publish_payload msg ++ rest).
  split; [exact Hw|]. split; [exact Hd|].
  apply Publish_Decode_payload; assumption.
Qed.

(** A QoS 1 [Publish] received by a QoS 1 receiver. *)
Lemma Publish_wire_roundtrip_witness :
  exists w L r,
    Publish_Encode (mkPublish (mkHeader false false 1) "a" 7 [x41]) newBuffer
    = (w, None)
    /\ Header_Decode Header_zero (written w ++ [x2a])
       = Success (mkHeader false false 1, MsgConnect, L, r)
    /\ Publish_Decode (mkPublish (mkHeader false false 1) "" 0 []) r
         (mkHeader false false 1) L
       = Success (mkPublish (mkHeader false false 1) "a" 7 [x41], [x2a]).
Proof.
  apply (Publish_wire_roundtrip (mkPublish (mkHeader false false 1) "a" 7 [x41])
           (mkPublish (mkHeader false false 1) "" 0 []) Header_zero [x2a]).
  - reflexivity.
  - unfold string16. vm_compute. reflexivity.
  - intros _. unfold uint16. simpl. lia.
  - vm_compute. discriminate.
  - reflexivity.
Defined.

(** X10: when the receiver's QoS level has no identifier and the message's has
    one, which is the case of a fresh receiver and a QoS 1 or 2 message,
    [Publish.Decode] succeeds all the same and returns the two identifier
    octets as the first two octets of the data. *)
Theorem Publish_Decode_identifier_as_data (msg msg0 : Publish) (hdr : Header)
  (rest : Reader) :
  string16 (TopicName msg) ->
  QosLevel_HasId (Header_QosLevel (Publish_Header msg)) = true ->
  QosLevel_HasId (Header_QosLevel (Publish_Header msg0)) = false ->
  Publish_Decode msg0 (Publish_payload msg ++ rest) hdr (len (Publish_payload msg))
  = Success (mkPublish (Publish_Header msg0) (TopicName msg)
               (Publish_MessageId msg0)
               (setUint16 (Publish_MessageId msg) [] ++ Data msg),
             rest).
Proof.
  intros Ht Hid Hid0. unfold string16 in Ht.
  pose proof (strlen_nonneg (TopicName msg)). pose proof (len_nonneg (Data msg)).
  unfold Publish_Decode, runBody, Publish_Decode_body, Publish_payload.
  cbn [Publish_Header TopicName Publish_MessageId Data]. rewrite Hid, Hid0.
  rewrite setUint16_app.
  rewrite !len_app, len_setString, len_setUint16, <- !app_assoc.
  read_field. unfold bind, ret. cbv beta iota.
  cbn [Publish_Header TopicName Publish_MessageId Data packetRemaining src].
  rewrite app_assoc.
  match goal with
  | |- context [ReadFull _ (Z.to_nat ?L)] =>
      destruct (ReadFull_budget (setUint16 (Publish_MessageId msg) [] ++ Data msg)
                  rest L) as [-> ->];
        [rewrite len_app, len_setUint16; lia|]
  end.
  reflexivity.
Qed.

(** The QoS 1 [Publish] above, received by the empty receiver. *)
Lemma Publish_Decode_identifier_as_data_witness :
  Publish_Decode (mkPublish Header_zero "" 0 [])
    [x00; x01; x61; x00; x07; x41] Header_zero 6
  = Success (mkPublish Header_zero "a" 0 [x00; x07; x41], []).
Proof.
  exact (Publish_Decode_identifier_as_data
           (mkPublish (mkHeader false false 1) "a" 7 [x41])
           (mkPublish Header_zero "" 0 []) Header_zero []
           ltac:(unfold string16; vm_compute; reflexivity) eq_refl eq_refl).
Defined.

(** ** SubAck, there and back *)

Lemma fold_left_setUint8 (l : list Z) (buf : Buffer) :
  fold_left (fun buf qos => setUint8 qos buf) l buf = buf ++ map byte_of_Z l.
Proof.
  revert buf. induction l as [|q l IH]; intros buf; cbn [fold_left map].
  - rewrite app_nil_r. reflexivity.
  - rewrite IH. unfold setUint8. rewrite <- app_assoc. reflexivity.
Qed.

Lemma land_wrap8_3 (q : Z) : Z.land (wrap8 q) 3 = q mod 4.
Proof.
  unfold wrap8. change 3 with (Z.ones 2). rewrite Z.land_ones by lia.
  change (2 ^ 2) with 4.
  apply Z.mod_mod_divide. exists 64. reflexivity.
Qed.

Lemma SubAck_Decode_loop_payload (l : list Z) :
  forall (n : nat) (acc : list QosLevel) (rest : Reader),
    (List.length l <= n)%nat ->
    SubAck_Decode_loop n acc (mkDstate (map byte_of_Z l ++ rest) (len l))
    = Ok (acc ++ map (fun q => q mod 4) l, mkDstate rest 0).
Proof.
  induction l as [|q l IH]; intros n acc rest Hn.
  - destruct n; cbn; rewrite app_nil_r; reflexivity.
  - destruct n as [|n]; [cbn in Hn; lia|].
    cbn [SubAck_Decode_loop packetRemaining map app].
    pose proof (len_nonneg l). rewrite len_cons.
    rewrite (proj2 (Z.gtb_lt (1 + len l) 0)) by lia.
    read_field. rewrite Z_of_byte_of_Z, land_wrap8_3.
    replace (1 + len l - 1) with (len l) by lia.
    rewrite IH by (cbn in Hn; lia).
    rewrite <- app_assoc. reflexivity.
Qed.

Lemma SubAck_Decode_payload (msg msg0 : SubAck) (hdr : Header) (rest : Reader) :
  uint16 (SubAck_MessageId msg) ->
  SubAck_Decode msg0 (SubAck_payload msg ++ rest) hdr (len (SubAck_payload msg))
  = Success (mkSubAck (SubAck_Header msg0) (SubAck_MessageId msg)
               (map (fun q => q mod 4) (SubAck_TopicsQos msg)),
             rest).
Proof.
  intros Hid. unfold SubAck_payload. rewrite fold_left_setUint8.
  pose proof (len_nonneg (map byte_of_Z (SubAck_TopicsQos msg))).
  rewrite len_app, len_setUint16, <- app_assoc.
  unfold SubAck_Decode, runBody, SubAck_Decode_body.
  read_field. unfold bind, ret. cbv beta iota. cbn [packetRemaining].
  replace (2 + len (map byte_of_Z (SubAck_TopicsQos msg)) - 2)
    with (len (SubAck_TopicsQos msg))
    by (unfold len, QosLevel; rewrite length_map; lia).
  rewrite SubAck_Decode_loop_payload by (unfold len, QosLevel; lia).
  reflexivity.
Qed.

(** X11: the round trip of [SubAck]: the identifier comes back and every granted
    QoS comes back reduced modulo 4, so the levels 0 to 3 come back as they
    were; the header of the result is the receiver's. *)
Theorem SubAck_wire_roundtrip (msg msg0 : SubAck) (hdr0 : Header) (rest : Reader) :
  QosLevel_IsValid (Header_QosLevel (SubAck_Header msg)) = true ->
  uint16 (SubAck_MessageId msg) ->
  len (SubAck_payload msg) <= 268435455 ->
  exists w L r,
    SubAck_Encode msg newBuffer = (w, None)
    /\ Header_Decode hdr0 (written w ++ rest)
       = Success (SubAck_Header msg, MsgConnect, L, r)
    /\ SubAck_Decode msg0 r (SubAck_Header msg) L
       = Success (mkSubAck (SubAck_Header msg0) (SubAck_MessageId msg)
                    (map (fun q => q mod 4) (SubAck_TopicsQos msg)),
                  rest).
Proof.
  intros Hq Hid HL.
  destruct (writeMessage_Header_Decode (SubAck_Header msg) hdr0
              (SubAck_payload msg) rest Hq HL) as (w & Hw & Hd).
  exists w, (len (SubAck_payload msg)), (SubAck_payload msg ++ rest).
  split; [exact Hw|]. split; [exact Hd|].
  apply SubAck_Decode_payload, Hid.
Qed.

(** Granted levels 0, 2 and 7: the last comes back as 3. *)
Lemma SubAck_wire_roundtrip_witness :
  exists w L r,
    SubAck_Encode (mkSubAck Header_zero 9 [0; 2; 7]) newBuffer = (w, None)
    /\ Header_Decode Header_zero (written w ++ [])
       = Success (Header_zero, MsgConnect, L, r)
    /\ SubAck_Decode (mkSubAck Header_zero 0 []) r Header_zero L
       = Success (mkSubAck Header_zero 9 [0; 2; 3], []).
Proof.
  apply (SubAck_wire_roundtrip (mkSubAck Header_zero 9 [0; 2; 7])
           (mkSubAck Header_zero 0 []) Header_zero []).
  - reflexivity.
  - unfold uint16. simpl. lia.
  - vm_compute. discriminate.
Defined.

(** ** Unsubscribe, there and back *)

Lemma fold_left_setString (l : list string) (buf : Buffer) :
  fold_left (fun buf topic => setString topic buf) l buf
  = buf ++ flat_map (fun topic => setString topic []) l.
Proof.
  revert buf. induction l as [|t l IH]; intros buf; cbn [fold_left flat_map].
  - rewrite app_nil_r. reflexivity.
  - rewrite IH, (setString_app t buf), <- app_assoc. reflexivity.
Qed.

Lemma Unsubscribe_Decode_loop_payload (l : list string) :
  forall (n : nat) (acc : list string) (rest : Reader),
    Forall string16 l ->
    (List.length l <= n)%nat ->
    Unsubscribe_Decode_loop n acc
      (mkDstate (flat_map (fun topic => setString topic []) l ++ rest)
         (len (flat_map (fun topic => setString topic []) l)))
    = Ok (acc ++ l, mkDstate rest 0).
Proof.
  induction l as [|t l IH]; intros n acc rest Hl Hn.
  - destruct n; cbn; rewrite app_nil_r; reflexivity.
  - destruct n as [|n]; [cbn in Hn; lia|].
    inversion Hl as [|? ? Ht Hl']; subst.
    cbn [Unsubscribe_Decode_loop packetRemaining flat_map].
    set (tail := flat_map (fun topic => setString topic []) l) in *.
    pose proof (len_nonneg tail). pose proof (strlen_nonneg t).
    rewrite len_app, len_setString, <- app_assoc.
    rewrite (proj2 (Z.gtb_lt (2 + strlen t + len tail) 0)) by lia.
    read_field.
    replace (2 + strlen t + len tail - 2 - strlen t) with (len tail) by lia.
    subst tail. rewrite IH by (try assumption; cbn in Hn; lia).
    rewrite <- app_assoc. reflexivity.
Qed.

Lemma length_flat_map_setString (l : list string) :
  (List.length l <= List.length (flat_map (fun topic => setString topic []) l))%nat.
Proof.
  induction l as [|t l IH]; cbn [flat_map List.length]; [lia|].
  rewrite length_app. pose proof (len_setString t) as H.
  unfold len, strlen in H. lia.
Qed.

Lemma Unsubscribe_Decode_payload (msg msg0 : Unsubscribe) (hdr : Header)
  (rest : Reader) :
  Forall string16 (Unsubscribe_Topics msg) ->
  QosLevel_HasId (Header_QosLevel (Unsubscribe_Header msg0))
  = QosLevel_HasId (Header_QosLevel (Unsubscribe_Header msg)) ->
  (QosLevel_HasId (Header_QosLevel (Unsubscribe_Header msg)) = true ->
   uint16 (Unsubscribe_MessageId msg)) ->
  Unsubscribe_Decode msg0 (Unsubscribe_payload msg ++ rest) hdr
    (len (Unsubscribe_payload msg))
  = Success (mkUnsubscribe (Unsubscribe_Header msg0)
               (if QosLevel_HasId (Header_QosLevel (Unsubscribe_Header msg))
                then Unsubscribe_MessageId msg else Unsubscribe_MessageId msg0)
               (Unsubscribe_Topics msg),
             rest).
Proof.
  intros Hl Hsame Hid.
  unfold Unsubscribe_payload. rewrite fold_left_setString.
  set (tail := flat_map (fun topic => setString topic []) (Unsubscribe_Topics msg)).
  pose proof (len_nonneg tail).
  pose proof (length_flat_map_setString (Unsubscribe_Topics msg)) as Hlen.
  fold tail in Hlen.
  unfold Unsubscribe_Decode, runBody, Unsubscribe_Decode_body.
  change ((Header_QosLevel (Unsubscribe_Header msg0) =? 1)
          || (Header_QosLevel (Unsubscribe_Header msg0) =? 2))
    with (QosLevel_HasId (Header_QosLevel (Unsubscribe_Header msg0))).
  rewrite Hsame.
  destruct (QosLevel_HasId (Header_QosLevel (Unsubscribe_Header msg))).
  - specialize (Hid eq_refl).
    rewrite len_app, len_setUint16, <- app_assoc.
    read_field. unfold bind, ret. cbv beta iota. cbn [packetRemaining].
    replace (2 + len tail - 2) with (len tail) by lia.
    subst tail.
    rewrite Unsubscribe_Decode_loop_payload
      by (try assumption; unfold len; lia).
    reflexivity.
  - cbn [app]. unfold bind, ret. cbn [packetRemaining].
    subst tail.
    rewrite Unsubscribe_Decode_loop_payload
      by (try assumption; unfold len; lia).
    reflexivity.
Qed.

(** X12: the round trip of [Unsubscribe] holds when the receiver already has the
    QoS kind of the message: topics of at most 65535 octets each, the empty
    topic and the empty list included, come back in order, with the
    identifier when the QoS level has one. *)
Theorem Unsubscribe_wire_roundtrip (msg msg0 : Unsubscribe) (hdr0 : Header)
  (rest : Reader) :
  QosLevel_IsValid (Header_QosLevel (Unsubscribe_Header msg)) = true ->
  Forall string16 (Unsubscribe_Topics msg) ->
  (QosLevel_HasId (Header_QosLevel (Unsubscribe_Header msg)) = true ->
   uint16 (Unsubscribe_MessageId msg)) ->
  len (Unsubscribe_payload msg) <= 268435455 ->
  QosLevel_HasId (Header_QosLevel (Unsubscribe_Header msg0))
  = QosLevel_HasId (Header_QosLevel (Unsubscribe_Header msg)) ->
  exists w L r,
    Unsubscribe_Encode msg newBuffer = (w, None)
    /\ Header_Decode hdr0 (written w ++ rest)
       = Success (Unsubscribe_Header msg, MsgConnect, L, r)
    /\ Unsubscribe_Decode msg0 r (Unsubscribe_Header msg) L
       = Success (mkUnsubscribe (Unsubscribe_Header msg0)
                    (if QosLevel_HasId (Header_QosLevel (Unsubscribe_Header msg))
                     then Unsubscribe_MessageId msg
                     else Unsubscribe_MessageId msg0)
                    (Unsubscribe_Topics msg),
                  rest).
Proof.
  intros Hq Hl Hid HL Hsame.
  destruct (writeMessage_Header_Decode (Unsubscribe_Header msg) hdr0
              (Unsubscribe_payload msg) rest Hq HL) as (w & Hw & Hd).
  exists w, (len (Unsubscribe_payload msg)), (Unsubscribe_payload msg ++ rest).
  split; [exact Hw|]. split; [exact Hd|].
  apply Unsubscribe_Decode_payload; assumption.
Qed.

(** Two topics, one of them empty, at QoS 1. *)
Lemma Unsubscribe_wire_roundtrip_witness :
  exists w L r,
    Unsubscribe_Encode (mkUnsubscribe (mkHeader false false 1) 3 ["a/b"%string; ""%string])
      newBuffer = (w, None)
    /\ Header_Decode Header_zero (written w ++ [])
       = Success (mkHeader false false 1, MsgConnect, L, r)
    /\ Unsubscribe_Decode (mkUnsubscribe (mkHeader false false 1) 0 []) r
         (mkHeader false false 1) L
       = Success (mkUnsubscribe (mkHeader false false 1) 3 ["a/b"%string; ""%string], []).
Proof.
  apply (Unsubscribe_wire_roundtrip
           (mkUnsubscribe (mkHeader false false 1) 3 ["a/b"%string; ""%string])
           (mkUnsubscribe (mkHeader false false 1) 0 []) Header_zero []).
  - reflexivity.
  - repeat constructor.
  - intros _. unfold uint16. simpl. lia.
  - vm_compute. discriminate.
  - reflexivity.
Defined.

(** ** Subscribe, there and back *)

Lemma skipn_nth_error {A : Type} (l : list A) :
  forall (i : nat) (x : A),
    nth_error l i = Some x -> skipn i l = x :: skipn (S i) l.
Proof.
  induction l as [|a l IH]; intros [|i] x H; cbn in *; try discriminate.
  - injection H as ->. reflexivity.
  - apply IH, H.
Qed.

Lemma Subscribe_Encode_loop_entries (msg : Subscribe) (n : nat) :
  forall (i : nat) (buf : Buffer),
    (i + n = List.length (Subscribe_Topics msg))%nat ->
    (List.length (Subscribe_Topics msg) <= List.length (Subscribe_TopicsQos msg))%nat ->
    Subscribe_Encode_loop n i msg buf
    = Ok (buf ++ flat_map Subscribe_entry
                   (combine (skipn i (Subscribe_Topics msg))
                            (skipn i (Subscribe_TopicsQos msg)))).
Proof.
  induction n as [|n IH]; intros i buf Hi Hle; cbn [Subscribe_Encode_loop].
  - rewrite skipn_all2 by lia. cbn. rewrite app_nil_r. reflexivity.
  - destruct (nth_error (Subscribe_Topics msg) i) as [topic|] eqn:Et.
    2:{ apply nth_error_None in Et. lia. }
    destruct (nth_error (Subscribe_TopicsQos msg) i) as [qos|] eqn:Eq.
    2:{ apply nth_error_None in Eq. lia. }
    rewrite IH by lia.
    rewrite (skipn_nth_error _ _ _ Et), (skipn_nth_error _ _ _ Eq).
    cbn [combine flat_map]. unfold Subscribe_entry at 2. cbn [fst snd].
    rewrite (setUint8_app qos (setString topic buf)), (setString_app topic buf).
    rewrite (setUint8_app qos (setString topic [])).
    rewrite <- !app_assoc. reflexivity.
Qed.

Lemma len_Subscribe_entry (p : string * QosLevel) :
  len (Subscribe_entry p) = 3 + strlen (fst p).
Proof.
  unfold Subscribe_entry, setUint8. rewrite len_app, len_setString.
  change (len [byte_of_Z (snd p)]) with 1. lia.
Qed.

Lemma Subscribe_Decode_loop_payload (l : list (string * QosLevel)) :
  forall (n : nat) (topics : list string) (acc : list QosLevel) (rest : Reader),
    Forall (fun p => string16 (fst p) /\ uint8 (snd p)) l ->
    (List.length l <= n)%nat ->
    Subscribe_Decode_loop n topics acc
      (mkDstate (flat_map Subscribe_entry l ++ rest)
         (len (flat_map Subscribe_entry l)))
    = Ok ((topics ++ map fst l, acc ++ map snd l), mkDstate rest 0).
Proof.
  induction l as [|[t q] l IH]; intros n topics acc rest Hl Hn.
  - destruct n; cbn; rewrite !app_nil_r; reflexivity.
  - destruct n as [|n]; [cbn in Hn; lia|].
    inversion Hl as [|? ? [Ht Hq] Hl']; subst. cbn [fst snd] in Ht, Hq.
    unfold uint8 in Hq.
    cbn [Subscribe_Decode_loop packetRemaining flat_map map fst snd].
    set (tail := flat_map Subscribe_entry l) in *.
    pose proof (len_nonneg tail). pose proof (strlen_nonneg t).
    rewrite len_app, len_Subscribe_entry. cbn [fst].
    unfold Subscribe_entry, setUint8. cbn [fst snd]. rewrite <- !app_assoc.
    rewrite (proj2 (Z.gtb_lt (3 + strlen t + len tail) 0)) by lia.
    read_field. cbn [app]. read_field.
    rewrite Z_of_byte_of_Z_small by lia.
    replace (3 + strlen t + len tail - 2 - strlen t - 1) with (len tail) by lia.
    subst tail. rewrite IH by (try assumption; cbn in Hn; lia).
    rewrite <- !app_assoc. reflexivity.
Qed.

Lemma length_flat_map_Subscribe_entry (l : list (string * QosLevel)) :
  (List.length l <= List.length (flat_map Subscribe_entry l))%nat.
Proof.
  induction l as [|p l IH]; cbn [flat_map List.length]; [lia|].
  rewrite length_app. pose proof (len_Subscribe_entry p) as H.
  pose proof (strlen_nonneg (fst p)). unfold len in H. lia.
Qed.

Lemma map_fst_combine {A B : Type} (a : list A) :
  forall b : list B,
    (List.length a <= List.length b)%nat -> map fst (combine a b) = a.
Proof.
  induction a as [|x a IH]; intros [|y b] H; cbn in *; try reflexivity; try lia.
  f_equal. apply IH. lia.
Qed.

Lemma map_snd_combine {A B : Type} (a : list A) :
  forall b : list B, map snd (combine a b) = firstn (List.length a) b.
Proof.
  induction a as [|x a IH]; intros [|y b]; cbn; try reflexivity.
  f_equal. apply IH.
Qed.

Lemma Forall_combine {A B : Type} (P : A -> Prop) (Q : B -> Prop) (a : list A) :
  forall b : list B,
    Forall P a -> Forall Q b ->
    Forall (fun p => P (fst p) /\ Q (snd p)) (combine a b).
Proof.
  induction a as [|x a IH]; intros [|y b] Ha Hb; cbn; try constructor.
  - inversion Ha; inversion Hb; subst. auto.
  - inversion Ha; inversion Hb; subst. apply IH; assumption.
Qed.

(** X13: the round trip of [Subscribe] holds when the receiver already has the
    QoS kind of the message.  The topics come back in order, each with its
    requested QoS; QoS entries beyond the number of topics are not sent and
    do not come back. *)
Theorem Subscribe_wire_roundtrip (msg msg0 : Subscribe) (hdr0 : Header)
  (rest : Reader) (payloadBuf : Buffer) :
  QosLevel_IsValid (Header_QosLevel (Subscribe_Header msg)) = true ->
  Forall string16 (Subscribe_Topics msg) ->
  Forall uint8 (Subscribe_TopicsQos msg) ->
  (QosLevel_HasId (Header_QosLevel (Subscribe_Header msg)) = true ->
   uint16 (Subscribe_MessageId msg)) ->
  QosLevel_HasId (Header_QosLevel (Subscribe_Header msg0))
  = QosLevel_HasId (Header_QosLevel (Subscribe_Header msg)) ->
  Subscribe_Encode_loop (List.length (Subscribe_Topics msg)) 0 msg
    (Subscribe_prefix msg) = Ok payloadBuf ->
  len payloadBuf <= 268435455 ->
  exists w L r,
    Subscribe_Encode msg newBuffer = Ok (w, None)
    /\ Header_Decode hdr0 (written w ++ rest)
       = Success (Subscribe_Header msg, MsgConnect, L, r)
    /\ Subscribe_Decode msg0 r (Subscribe_Header msg) L
       = Success (mkSubscribe (Subscribe_Header msg0)
                    (if QosLevel_HasId (Header_QosLevel (Subscribe_Header msg))
                     then Subscribe_MessageId msg else Subscribe_MessageId msg0)
                    (Subscribe_Topics msg)
                    (firstn (List.length (Subscribe_Topics msg))
                       (Subscribe_TopicsQos msg)),
                  rest).
Proof.
  intros Hq Ht Hqos Hid Hsame Hloop HL.
  pose proof (Subscribe_Encode_loop_lengths msg _ _ Hloop) as Hle.
  rewrite Subscribe_Encode_loop_entries in Hloop by (cbn; lia).
  cbn [skipn] in Hloop. injection Hloop as <-.
  set (entries := combine (Subscribe_Topics msg) (Subscribe_TopicsQos msg)) in *.
  set (payload := Subscribe_prefix msg ++ flat_map Subscribe_entry entries) in *.
  destruct (writeMessage_Header_Decode (Subscribe_Header msg) hdr0 payload rest
              Hq HL) as (w & Hw & Hd).
  exists w, (len payload), (payload ++ rest).
  split; [|split; [exact Hd|]].
  - unfold Subscribe_Encode.
    change (if QosLevel_HasId (Header_QosLevel (Subscribe_Header msg))
            then setUint16 (Subscribe_MessageId msg) [] else [])
      with (Subscribe_prefix msg).
    rewrite Subscribe_Encode_loop_entries by (cbn; lia).
    cbn [skipn]. fold entries. fold payload. rewrite Hw. reflexivity.
  - assert (Hent : Forall (fun p => string16 (fst p) /\ uint8 (snd p)) entries)
      by (apply Forall_combine; assumption).
    pose proof (length_flat_map_Subscribe_entry entries) as Hlen.
    pose proof (len_nonneg (flat_map Subscribe_entry entries)).
    subst payload. unfold Subscribe_prefix.
    unfold Subscribe_Decode, runBody, Subscribe_Decode_body. rewrite Hsame.
    destruct (QosLevel_HasId (Header_QosLevel (Subscribe_Header msg))).
    + specialize (Hid eq_refl).
      rewrite len_app, len_setUint16, <- app_assoc.
      read_field. unfold bind, ret. cbv beta iota. cbn [packetRemaining].
      replace (2 + len (flat_map Subscribe_entry entries) - 2)
        with (len (flat_map Subscribe_entry entries)) by lia.
      rewrite Subscribe_Decode_loop_payload
        by (try assumption; unfold len; lia).
      cbv beta iota. cbn [fst snd app recoverError src]. subst entries.
      rewrite map_fst_combine by exact Hle. rewrite map_snd_combine.
      reflexivity.
    + cbn [app]. unfold bind, ret. cbn [packetRemaining].
      rewrite Subscribe_Decode_loop_payload
        by (try assumption; unfold len; lia).
      cbv beta iota. cbn [fst snd app recoverError src]. subst entries.
      rewrite map_fst_combine by exact Hle. rewrite map_snd_combine.
      reflexivity.
Qed.

(** Two topics and three QoS entries at QoS 1: the third entry is lost. *)
Lemma Subscribe_wire_roundtrip_witness :
  exists w L r,
    Subscribe_Encode
      (mkSubscribe (mkHeader false false 1) 3 ["a"%string; "b/c"%string] [0; 2; 1])
      newBuffer = Ok (w, None)
    /\ Header_Decode Header_zero (written w ++ [])
       = Success (mkHeader false false 1, MsgConnect, L, r)
    /\ Subscribe_Decode (mkSubscribe (mkHeader false false 1) 0 [] []) r
         (mkHeader false false 1) L
       = Success (mkSubscribe (mkHeader false false 1) 3
                    ["a"%string; "b/c"%string] [0; 2], []).
Proof.
  apply (Subscribe_wire_roundtrip
           (mkSubscribe (mkHeader false false 1) 3 ["a"%string; "b/c"%string]
              [0; 2; 1])
           (mkSubscribe (mkHeader false false 1) 0 [] []) Header_zero []
           [x00; x03; x00; x01; x61; x00; x00; x03; x62; x2f; x63; x02]).
  - reflexivity.
  - repeat constructor.
  - repeat constructor; discriminate.
  - intros _. unfold uint16. simpl. lia.
  - reflexivity.
  - reflexivity.
  - vm_compute. discriminate.
Defined.

(** ** The budget *)

Lemma accounted_ret {A : Type} (a : A) : accounted (ret a).
Proof.
  intros st a' st' H. injection H as <- <-. exists []. cbn. split; [reflexivity|].
  split; [change (len (@nil byte)) with 0; lia | auto].
Qed.

Lemma accounted_bind {A B : Type} (m : M A) (k : A -> M B) :
  accounted m -> (forall a, accounted (k a)) -> accounted (bind m k).
Proof.
  intros Hm Hk st b st2 H. unfold bind in H.
  destruct (m st) as [[a st1]|e| |] eqn:E; try discriminate.
  destruct (Hm _ _ _ E) as (p1 & S1 & L1 & B1).
  destruct (Hk a _ _ _ H) as (p2 & S2 & L2 & B2).
  exists (p1 ++ p2). rewrite S1, S2, <- app_assoc, len_app.
  split; [reflexivity|]. split; [lia|].
  destruct B2 as [-> | B2]; [|auto].
  change (len (@nil byte)) with 0 in L2.
  destruct B1 as [-> | B1]; [auto | right; lia].
Qed.

Lemma accounted_getUint8 : accounted getUint8.
Proof.
  intros st a st' H.
  destruct (getUint8_spec st) as [E | (b & r & Hsrc & Hb & E)];
    rewrite E in H; [discriminate|].
  injection H as <- <-. exists [b]. cbn [src packetRemaining].
  rewrite Hsrc. split; [reflexivity|].
  split; [change (len [b]) with 1; lia | right; lia].
Qed.

Lemma accounted_getUint16 : accounted getUint16.
Proof.
  intros st a st' H.
  destruct (getUint16_spec st) as [E | (b1 & b0 & r & Hsrc & Hb & E)];
    rewrite E in H; [discriminate|].
  injection H as <- <-. exists [b1; b0]. cbn [src packetRemaining].
  rewrite Hsrc. split; [reflexivity|].
  split; [change (len [b1; b0]) with 2; lia | right; lia].
Qed.

Lemma accounted_getString : accounted getString.
Proof.
  intros st a st' H.
  destruct (getString_spec st) as [E | (s & r & Hsrc & Hb & E)];
    rewrite E in H; [discriminate|].
  injection H as <- <-. exists (setString s []). cbn [src packetRemaining].
  rewrite Hsrc, len_setString. split; [reflexivity|].
  split; [lia | right; lia].
Qed.

Lemma accounted_if {A : Type} (c : bool) (m1 m2 : M A) :
  accounted m1 -> accounted m2 -> accounted (if c then m1 else m2).
Proof. destruct c; auto. Qed.

#[local] Hint Resolve accounted_ret accounted_getUint8 accounted_getUint16
  accounted_getString : decode.

Ltac accounted_auto :=
  repeat first
    [ solve [auto with decode]
    | apply accounted_if
    | apply accounted_bind; [|intros ?] ].

Lemma accounted_Subscribe_loop (n : nat) :
  forall topics acc, accounted (Subscribe_Decode_loop n topics acc).
Proof.
  induction n as [|n IH]; intros topics acc st a st' H;
    cbn [Subscribe_Decode_loop] in H;
    destruct (packetRemaining st >? 0); try discriminate;
    try (revert H; apply accounted_ret).
  revert H. apply accounted_bind; [auto with decode|]. intros topic.
  apply accounted_bind; [auto with decode|]. intros qos. apply IH.
Qed.

Lemma accounted_SubAck_loop (n : nat) :
  forall acc, accounted (SubAck_Decode_loop n acc).
Proof.
  induction n as [|n IH]; intros acc st a st' H;
    cbn [SubAck_Decode_loop] in H;
    destruct (packetRemaining st >? 0); try discriminate;
    try (revert H; apply accounted_ret).
  revert H. apply accounted_bind; [auto with decode|]. intros b. apply IH.
Qed.

Lemma accounted_Unsubscribe_loop (n : nat) :
  forall acc, accounted (Unsubscribe_Decode_loop n acc).
Proof.
  induction n as [|n IH]; intros acc st a st' H;
    cbn [Unsubscribe_Decode_loop] in H;
    destruct (packetRemaining st >? 0); try discriminate;
    try (revert H; apply accounted_ret).
  revert H. apply accounted_bind; [auto with decode|]. intros topic. apply IH.
Qed.

Lemma accounted_fuelled {A : Type} (loop : nat -> M A) :
  (forall n, accounted (loop n)) ->
  accounted (fun st => loop (Z.to_nat (packetRemaining st)) st).
Proof. intros H st a st' E. exact (H _ _ _ _ E). Qed.

Lemma drained_bind {A B : Type} (m : M A) (k : A -> M B) :
  (forall a, drained (k a)) -> drained (bind m k).
Proof.
  intros Hk st b st2 H. unfold bind in H.
  destruct (m st) as [[a st1]|e| |]; try discriminate.
  exact (Hk a _ _ _ H).
Qed.

Lemma drained_then_ret {A B : Type} (m : M A) (f : A -> B) :
  drained m -> drained (bind m (fun a => ret (f a))).
Proof.
  intros Hm st b st2 H. unfold bind, ret in H.
  destruct (m st) as [[a st1]|e| |] eqn:E; try discriminate.
  injection H as _ <-. exact (Hm _ _ _ E).
Qed.

Lemma drained_fuelled {A : Type} (loop : nat -> M A) :
  (forall n, drained (loop n)) ->
  drained (fun st => loop (Z.to_nat (packetRemaining st)) st).
Proof. intros H st a st' E. exact (H _ _ _ _ E). Qed.

Lemma drained_Subscribe_loop (n : nat) :
  forall topics acc, drained (Subscribe_Decode_loop n topics acc).
Proof.
  induction n as [|n IH]; intros topics acc st a st' H;
    cbn [Subscribe_Decode_loop] in H;
    destruct (packetRemaining st >? 0) eqn:E; try discriminate;
    try (injection H as _ <-; rewrite Z.gtb_ltb in E; apply Z.ltb_ge in E; lia).
  revert H. apply drained_bind. intros topic. apply drained_bind. intros qos.
  apply IH.
Qed.

Lemma drained_SubAck_loop (n : nat) :
  forall acc, drained (SubAck_Decode_loop n acc).
Proof.
  induction n as [|n IH]; intros acc st a st' H;
    cbn [SubAck_Decode_loop] in H;
    destruct (packetRemaining st >? 0) eqn:E; try discriminate;
    try (injection H as _ <-; rewrite Z.gtb_ltb in E; apply Z.ltb_ge in E; lia).
  revert H. apply drained_bind. intros b. apply IH.
Qed.

Lemma drained_Unsubscribe_loop (n : nat) :
  forall acc, drained (Unsubscribe_Decode_loop n acc).
Proof.
  induction n as [|n IH]; intros acc st a st' H;
    cbn [Unsubscribe_Decode_loop] in H;
    destruct (packetRemaining st >? 0) eqn:E; try discriminate;
    try (injection H as _ <-; rewrite Z.gtb_ltb in E; apply Z.ltb_ge in E; lia).
  revert H. apply drained_bind. intros topic. apply IH.
Qed.

Lemma accounted_Connect (msg : Connect) : accounted (Connect_Decode_body msg).
Proof. unfold Connect_Decode_body. accounted_auto. Qed.

Lemma accounted_ConnAck (msg : ConnAck) : accounted (ConnAck_Decode_body msg).
Proof. unfold ConnAck_Decode_body. accounted_auto. Qed.

Lemma accounted_AckCommon (msg : AckCommon) : accounted (AckCommon_Decode_body msg).
Proof. unfold AckCommon_Decode_body. accounted_auto. Qed.

Lemma accounted_Subscribe (msg : Subscribe) : accounted (Subscribe_Decode_body msg).
Proof.
  unfold Subscribe_Decode_body. accounted_auto.
  apply (accounted_fuelled (fun n => Subscribe_Decode_loop n [] [])).
  intros n. apply accounted_Subscribe_loop.
Qed.

Lemma accounted_SubAck (msg : SubAck) : accounted (SubAck_Decode_body msg).
Proof.
  unfold SubAck_Decode_body. accounted_auto.
  apply (accounted_fuelled (fun n => SubAck_Decode_loop n [])).
  intros n. apply accounted_SubAck_loop.
Qed.

Lemma accounted_Unsubscribe (msg : Unsubscribe) :
  accounted (Unsubscribe_Decode_body msg).
Proof.
  unfold Unsubscribe_Decode_body. accounted_auto.
  apply (accounted_fuelled (fun n => Unsubscribe_Decode_loop n [])).
  intros n. apply accounted_Unsubscribe_loop.
Qed.

Lemma drained_Subscribe (msg : Subscribe) : drained (Subscribe_Decode_body msg).
Proof.
  unfold Subscribe_Decode_body. apply drained_bind. intros id.
  apply drained_then_ret.
  apply (drained_fuelled (fun n => Subscribe_Decode_loop n [] [])).
  intros n. apply drained_Subscribe_loop.
Qed.

Lemma drained_SubAck (msg : SubAck) : drained (SubAck_Decode_body msg).
Proof.
  unfold SubAck_Decode_body. apply drained_bind. intros id.
  apply drained_then_ret.
  apply (drained_fuelled (fun n => SubAck_Decode_loop n [])).
  intros n. apply drained_SubAck_loop.
Qed.

Lemma drained_Unsubscribe (msg : Unsubscribe) :
  drained (Unsubscribe_Decode_body msg).
Proof.
  unfold Unsubscribe_Decode_body. cbv zeta. apply drained_bind. intros id.
  apply drained_then_ret.
  apply (drained_fuelled (fun n => Unsubscribe_Decode_loop n [])).
  intros n. apply drained_Unsubscribe_loop.
Qed.

(** From a body to the call: what was read, and what the budget became. *)
Lemma runBody_accounted {A : Type} (body : M (A + error)) (r r' : Reader)
  (L : Z) (a : A) :
  accounted body ->
  recoverError (runBody body r L) = Success (a, r') ->
  exists pre st',
    body (mkDstate r L) = Ok (inl a, st')
    /\ r = pre ++ r'
    /\ len pre = L - packetRemaining st'
    /\ (pre = [] \/ 0 <= packetRemaining st').
Proof.
  intros Hacc H. unfold runBody in H.
  destruct (body (mkDstate r L)) as [[[a1|e] st']|e| |] eqn:E;
    cbn [recoverError] in H; try discriminate.
  injection H as <- <-.
  destruct (Hacc _ _ _ E) as (pre & Hs & Hl & Hb).
  exists pre, st'. cbn [src packetRemaining] in *. auto.
Qed.

Lemma Publish_Decode_consumed (msg msg' : Publish) (r r' : Reader) (hdr : Header)
  (L : Z) :
  Publish_Decode msg r hdr L = Success (msg', r') ->
  exists pre, r = pre ++ r' /\ len pre = L.
Proof.
  unfold Publish_Decode, runBody.
  pose proof (Publish_Decode_body_spec msg (mkDstate r L)) as H.
  destruct (Publish_Decode_body msg (mkDstate r L)) as [[[m'|e] st']|e| |];
    cbn [recoverError]; try discriminate.
  intros E. injection E as <- <-.
  destruct H as (id & Hsrc & Hid & Hdata & _).
  cbn [src packetRemaining] in *.
  exists (setString (TopicName m') [] ++ id ++ Data m').
  rewrite Hsrc, <- !app_assoc. split; [reflexivity|].
  rewrite !len_app, len_setString. lia.
Qed.

(** X14: no decoder of [messages.go] reads past its budget: when a [Decode]
    succeeds, the octets it took from the source are at most [L], and none
    when [L] is negative. *)
Theorem Decode_within_budget (m m' : Message) (r r' : Reader) (hdr : Header)
  (L : Z) :
  viaWriteMessage m = true ->
  Decode m r hdr L = Success (m', r') ->
  exists pre, r = pre ++ r' /\ len pre <= Z.max 0 L.
Proof.
  intros Hv H.
  assert (G : forall A (body : M (A + error)) (a : A),
            accounted body ->
            recoverError (runBody body r L) = Success (a, r') ->
            exists pre, r = pre ++ r' /\ len pre <= Z.max 0 L).
  { intros A body a Hacc E.
    destruct (runBody_accounted body r r' L a Hacc E)
      as (pre & st' & _ & Hr & Hl & Hb).
    exists pre. split; [exact Hr|].
    destruct Hb as [-> | Hb]; [change (len (@nil byte)) with 0|]; lia. }
  destruct m; try discriminate Hv; unfold_methods_in H;
    match type of H with
    | lift _ ?o = _ => destruct o as [[a r1]|e| |] eqn:E; try discriminate
    end;
    cbn [lift] in H; injection H as _ <-.
  - eapply G; [apply accounted_Connect | exact E].
  - eapply G; [apply accounted_ConnAck | exact E].
  - destruct (Publish_Decode_consumed _ _ _ _ _ _ E) as (pre & Hr & Hl).
    exists pre. split; [exact Hr | lia].
  - eapply G; [apply accounted_AckCommon | exact E].
  - eapply G; [apply accounted_AckCommon | exact E].
  - eapply G; [apply accounted_AckCommon | exact E].
  - eapply G; [apply accounted_AckCommon | exact E].
  - eapply G; [apply accounted_Subscribe | exact E].
  - eapply G; [apply accounted_SubAck | exact E].
  - eapply G; [apply accounted_Unsubscribe | exact E].
  - eapply G; [apply accounted_AckCommon | exact E].
Qed.

(** A [Connect] of 14 octets decoded with a budget of 20. *)
Lemma Decode_within_budget_witness :
  exists pre,
    [x00; x02; x4d; x51; x03; x02; x00; x0a; x00; x02; x69; x64; xff]
    = pre ++ [xff]
    /\ len pre <= Z.max 0 20.
Proof.
  exact (Decode_within_budget (IsConnect Connect_zero)
           (IsConnect (mkConnect Header_zero "MQ" 3 false false true 0 10 "id"
                         "" "" false false "" ""))
           [x00; x02; x4d; x51; x03; x02; x00; x0a; x00; x02; x69; x64; xff]
           [xff] Header_zero 20 eq_refl eq_refl).
Defined.

(** X15: [Publish.Decode], [Subscribe.Decode], [SubAck.Decode] and
    [Unsubscribe.Decode] read until the budget is used up: when one of them
    succeeds it has taken exactly [L] octets from the source (none when [L]
    is not positive), and what follows the packet is left in the source.
    The other decoders stop after their fields and do not look at what is
    left of the budget. *)
Theorem Decode_uses_budget (m m' : Message) (r r' : Reader) (hdr : Header)
  (L : Z) :
  readsToBudget m = true ->
  Decode m r hdr L = Success (m', r') ->
  exists pre, r = pre ++ r' /\ len pre = Z.max 0 L.
Proof.
  intros Hv H.
  assert (G : forall A (body : M (A + error)) (a : A),
            accounted body -> drained body ->
            recoverError (runBody body r L) = Success (a, r') ->
            exists pre, r = pre ++ r' /\ len pre = Z.max 0 L).
  { intros A body a Hacc Hdr E.
    destruct (runBody_accounted body r r' L a Hacc E)
      as (pre & st' & Hbody & Hr & Hl & Hb).
    apply Hdr in Hbody. pose proof (len_nonneg pre).
    exists pre. split; [exact Hr|].
    destruct Hb as [-> | Hb]; [change (len (@nil byte)) with 0 in *|]; lia. }
  destruct m; try discriminate Hv; unfold_methods_in H;
    match type of H with
    | lift _ ?o = _ => destruct o as [[a r1]|e| |] eqn:E; try discriminate
    end;
    cbn [lift] in H; injection H as _ <-.
  - destruct (Publish_Decode_consumed _ _ _ _ _ _ E) as (pre & Hr & Hl).
    pose proof (len_nonneg pre). exists pre. split; [exact Hr | lia].
  - eapply G; [apply accounted_Subscribe | apply drained_Subscribe | exact E].
  - eapply G; [apply accounted_SubAck | apply drained_SubAck | exact E].
  - eapply G; [apply accounted_Unsubscribe | apply drained_Unsubscribe | exact E].
Qed.

(** A [SubAck] of four octets, with the first octet of the next packet
    behind it. *)
Lemma Decode_uses_budget_witness :
  exists pre, [x00; x01; x02; x01; x30] = pre ++ [x30] /\ len pre = Z.max 0 4.
Proof.
  exact (Decode_uses_budget (IsSubAck (mkSubAck Header_zero 0 []))
           (IsSubAck (mkSubAck Header_zero 1 [2; 1]))
           [x00; x01; x02; x01; x30] [x30] Header_zero 4 eq_refl eq_refl).
Defined.

(** ** What the decoders return *)

Lemma produces_ret {A : Type} (Q : A -> Prop) (a : A) : Q a -> produces Q (ret a).
Proof. intros HQ st a' st' H. injection H as <- _. exact HQ. Qed.

Lemma produces_bind {A B : Type} (Q1 : A -> Prop) (Q : B -> Prop) (m : M A)
  (k : A -> M B) :
  produces Q1 m -> (forall a, Q1 a -> produces Q (k a)) -> produces Q (bind m k).
Proof.
  intros Hm Hk st b st2 H. unfold bind in H.
  destruct (m st) as [[a st1]|e| |] eqn:E; try discriminate.
  exact (Hk a (Hm _ _ _ E) _ _ _ H).
Qed.

Lemma produces_bind_any {A B : Type} (Q : B -> Prop) (m : M A) (k : A -> M B) :
  (forall a, produces Q (k a)) -> produces Q (bind m k).
Proof.
  intros Hk. apply produces_bind with (Q1 := fun _ => True).
  - intros st a st' _. exact I.
  - intros a _. apply Hk.
Qed.

Lemma produces_getUint8 : produces uint8 getUint8.
Proof.
  intros st a st' H.
  destruct (getUint8_spec st) as [E | (b & r & _ & _ & E)];
    rewrite E in H; [discriminate|].
  injection H as <- _. apply Z_of_byte_range.
Qed.

Lemma produces_getUint16 : produces uint16 getUint16.
Proof.
  intros st a st' H.
  destruct (getUint16_spec st) as [E | (b1 & b0 & r & _ & _ & E)];
    rewrite E in H; [discriminate|].
  injection H as <- _.
  pose proof (Z_of_byte_range b1). pose proof (Z_of_byte_range b0).
  unfold uint16. lia.
Qed.

Lemma produces_getString : produces string16 getString.
Proof.
  intros st s st' H. unfold getString, bind in H.
  destruct (getUint16 st) as [[strLen st1]|e| |] eqn:E; try discriminate.
  apply produces_getUint16 in E. unfold uint16 in E.
  destruct (packetRemaining st1 <? strLen); [discriminate|].
  destruct (ReadFull (src st1) (Z.to_nat strLen)) as [[b r']|e] eqn:R;
    [|discriminate].
  apply ReadFull_ok in R as [_ Hlen]. injection H as <- _.
  unfold string16, strlen. rewrite length_string_of_list_byte, Hlen. lia.
Qed.

Lemma willQos_range (flags : Z) :
  uint8 flags -> 0 <= Z.shiftr (Z.land flags 24) 3 <= 3.
Proof.
  intros H. rewrite <- (Z_of_byte_of_Z_small flags H).
  destruct (byte_of_Z flags); cbv; split; discriminate.
Qed.

Lemma string16_empty : string16 EmptyString.
Proof. unfold string16. cbn. lia. Qed.

Lemma Connect_Decode_decoded (msg msg' : Connect) (r r' : Reader) (hdr : Header)
  (L : Z) :
  Connect_Decode msg r hdr L = Success (msg', r') -> Connect_decoded msg'.
Proof.
  intros H.
  assert (P : produces (onMessage Connect_decoded) (Connect_Decode_body msg)).
  { unfold Connect_Decode_body.
    apply produces_bind with (Q1 := string16); [apply produces_getString|].
    intros name Hname.
    apply produces_bind with (Q1 := uint8); [apply produces_getUint8|].
    intros ver Hver.
    apply produces_bind with (Q1 := uint8); [apply produces_getUint8|].
    intros flags Hflags.
    apply produces_bind with (Q1 := uint16); [apply produces_getUint16|].
    intros ka Hka.
    apply produces_bind with (Q1 := string16); [apply produces_getString|].
    intros cid Hcid. cbv zeta.
    apply produces_bind
      with (Q1 := fun will : string * string =>
                    string16 (fst will) /\ string16 (snd will)
                    /\ ((Z.land flags 4 >? 0) = false ->
                        fst will = EmptyString /\ snd will = EmptyString)).
    { destruct (Z.land flags 4 >? 0).
      - apply produces_bind with (Q1 := string16); [apply produces_getString|].
        intros wt Hwt.
        apply produces_bind with (Q1 := string16); [apply produces_getString|].
        intros wm Hwm. apply produces_ret. cbn. repeat split; auto; discriminate.
      - apply produces_ret. cbn. repeat split; auto using string16_empty. }
    intros will (Hwt & Hwm & Hwill).
    apply produces_bind
      with (Q1 := fun u : string =>
                    string16 u
                    /\ ((Z.land flags 128 >? 0) = false -> u = EmptyString)).
    { destruct (Z.land flags 128 >? 0).
      - intros st a st' E. apply produces_getString in E.
        split; [exact E | discriminate].
      - apply produces_ret. split; auto using string16_empty. }
    intros user (Huser & Hu).
    apply produces_bind
      with (Q1 := fun p : string =>
                    string16 p
                    /\ ((Z.land flags 64 >? 0) = false -> p = EmptyString)).
    { destruct (Z.land flags 64 >? 0).
      - intros st a st' E. apply produces_getString in E.
        split; [exact E | discriminate].
      - apply produces_ret. split; auto using string16_empty. }
    intros pass (Hpass & Hp).
    apply produces_ret. cbn [onMessage].
    constructor; cbn; auto. apply willQos_range, Hflags. }
  unfold Connect_Decode, runBody in H.
  destruct (Connect_Decode_body msg (mkDstate r L)) as [[[a|e] st']|e| |] eqn:E;
    cbn [recoverError] in H; try discriminate.
  injection H as <- _. exact (P _ _ _ E).
Qed.

(** X16: every [Connect] that [Connect.Decode] returns has the zero header,
    whatever header it was handed; its numbers are within their wire
    ranges, with a will-QoS from 0 to 3; its strings have at most 65535
    octets; and will topic, will message, username and password are empty
    when their flag is off.  It satisfies all [Connect.Encode] and the
    round trip ask for, except that its will-QoS may be 3. *)
Theorem Connect_Decode_result (msg msg' : Connect) (r r' : Reader) (hdr : Header)
  (L : Z) :
  Connect_Decode msg r hdr L = Success (msg', r') ->
  Connect_decoded msg' /\ (WillQos msg' <> 3 -> Connect_wf msg').
Proof.
  intros H. pose proof (Connect_Decode_decoded _ _ _ _ _ _ H) as D.
  split; [exact D|]. intros Hq.
  destruct D as [Hh Hwq Hver Hka Hname Hcid Hwt Hwm Huser Hpass Hwill Hu Hp].
  constructor; auto.
  unfold QosLevel_IsValid.
  apply andb_true_intro. split; [apply Z.leb_le | apply Z.ltb_lt]; lia.
Qed.

(** A [Connect] payload with the flags octet [1a]: will-QoS 3, will flag
    off, clean session. *)
Lemma Connect_Decode_result_witness :
  let msg' := mkConnect Header_zero "MQ" 3 false false true 3 10 "id" "" ""
                false false "" "" in
  Connect_decoded msg' /\ (WillQos msg' <> 3 -> Connect_wf msg').
Proof.
  exact (Connect_Decode_result
           (mkConnect (mkHeader true true 2) "" 0 false false false 0 0 "" "" ""
              false false "" "")
           (mkConnect Header_zero "MQ" 3 false false true 3 10 "id" "" ""
              false false "" "")
           [x00; x02; x4d; x51; x03; x1a; x00; x0a; x00; x02; x69; x64] []
           (mkHeader true true 2) 12 eq_refl).
Defined.

(** X17: no decoder of [messages.go] stores the header it is handed.  After a
    successful [Decode] the message has the header the receiver had before
    the call, and a [Connect] has the zero header; the [hdr] argument plays
    no part. *)
Theorem Decode_header (m m' : Message) (r r' : Reader) (hdr : Header) (L : Z) :
  viaWriteMessage m = true ->
  Decode m r hdr L = Success (m', r') ->
  typeOf m' = typeOf m
  /\ headerOf m' = match m with
                   | IsConnect _ => Header_zero
                   | _ => headerOf m
                   end.
Proof.
  intros Hv H.
  assert (G : forall A (body : M (A + error)) (Q : A -> Prop) (a : A) r2,
            produces (onMessage Q) body ->
            recoverError (runBody body r L) = Success (a, r2) -> Q a).
  { intros A body Q a r2 P E. unfold runBody in E.
    destruct (body (mkDstate r L)) as [[[a1|e] st']|e| |] eqn:Eb;
      cbn [recoverError] in E; try discriminate.
    injection E as <- _. exact (P _ _ _ Eb). }
  assert (PA : forall msg : AckCommon,
             produces (onMessage (fun a => AckCommon_Header a = AckCommon_Header msg))
               (AckCommon_Decode_body msg)).
  { intros msg. unfold AckCommon_Decode_body. apply produces_bind_any. intros id.
    apply produces_ret. reflexivity. }
  destruct m; try discriminate Hv; unfold_methods_in H;
    match type of H with
    | lift _ ?o = _ => destruct o as [[a r1]|e| |] eqn:E; try discriminate
    end;
    cbn [lift] in H; injection H as <- _; cbn [typeOf headerOf];
    (split; [reflexivity|]).
  - apply Connect_Decode_decoded in E. apply E.
  - eapply (G _ _ (fun x => ConnAck_Header x = ConnAck_Header m)); [|exact E].
    unfold ConnAck_Decode_body. do 2 (apply produces_bind_any; intros ?).
    cbn [ConnAck_ReturnCode].
    destruct (negb (ReturnCode_IsValid a1)); apply produces_ret; cbn; auto.
  - unfold Publish_Decode, runBody in E.
    pose proof (Publish_Decode_body_spec m (mkDstate r L)) as S.
    destruct (Publish_Decode_body m (mkDstate r L)) as [[[m1|e] st']|e| |];
      cbn [recoverError] in E; try discriminate.
    injection E as <- _. destruct S as (_ & _ & _ & _ & Hh). exact Hh.
  - eapply (G _ _ (fun x => AckCommon_Header x = AckCommon_Header m));
      [apply PA | exact E].
  - eapply (G _ _ (fun x => AckCommon_Header x = AckCommon_Header m));
      [apply PA | exact E].
  - eapply (G _ _ (fun x => AckCommon_Header x = AckCommon_Header m));
      [apply PA | exact E].
  - eapply (G _ _ (fun x => AckCommon_Header x = AckCommon_Header m));
      [apply PA | exact E].
  - eapply (G _ _ (fun x => Subscribe_Header x = Subscribe_Header m)); [|exact E].
    unfold Subscribe_Decode_body. do 2 (apply produces_bind_any; intros ?).
    apply produces_ret. reflexivity.
  - eapply (G _ _ (fun x => SubAck_Header x = SubAck_Header m)); [|exact E].
    unfold SubAck_Decode_body. do 2 (apply produces_bind_any; intros ?).
    apply produces_ret. reflexivity.
  - eapply (G _ _ (fun x => Unsubscribe_Header x = Unsubscribe_Header m));
      [|exact E].
    unfold Unsubscribe_Decode_body. cbv zeta.
    do 2 (apply produces_bind_any; intros ?).
    apply produces_ret. reflexivity.
  - eapply (G _ _ (fun x => AckCommon_Header x = AckCommon_Header m));
      [apply PA | exact E].
Qed.

(** A [PubRel] decoded with a header that has dup, QoS 1 and retain. *)
Lemma Decode_header_witness :
  typeOf (IsPubRel (mkAckCommon Header_zero 515)) = MsgPubRel
  /\ headerOf (IsPubRel (mkAckCommon Header_zero 515)) = Header_zero.
Proof.
  exact (Decode_header (IsPubRel (mkAckCommon Header_zero 0))
           (IsPubRel (mkAckCommon Header_zero 515)) [x02; x03] []
           (mkHeader true true 1) 2 eq_refl eq_refl).
Defined.
